(** * neo-chatten: Q-score analysis and swap pricing

  A shallow embedding of [tools/market_tools.py] (the Q-score analyzer)
  and of the swap arithmetic exercised by [tests/test_contract.py],
  followed by the properties the specification states about them.

  Number model.  A Python [float] is a number, an infinity or NaN
  ([Py.float]).  Numbers are exact rationals: a decimal literal such as
  [0.25] denotes 25/100 and arithmetic on numbers is exact, so binary
  rounding is not represented.  Every comparison with NaN is false and NaN
  propagates through arithmetic, as in Python.  Python [int] values are
  unbounded and modelled by [Z]; [//] is floor division, which raises on a
  zero divisor.  The coroutines of the analyzer await nothing but each
  other and are modelled as functions of the analyzer instance. *)

From Stdlib Require Import ZArith QArith Qminmax Lqa Lia List String Bool.
From Stdlib Require Import Sorting.Sorted Sorting.Permutation.
From stdpp Require Import gmap strings.
Import ListNotations.

Set Warnings "-register-all".

Local Open Scope Q_scope.

(** ** Python numerics *)

Module Py.

(** A Python [float]: a number, an infinity ([Inf true] is minus infinity)
  or NaN. *)
Inductive float :=
| Num (q : Q)
| Inf (negative : bool)
| NaN.

(** [math.isnan(x)] *)
Definition is_nan (x : float) : bool :=
  match x with
  | NaN => true
  | _ => false
  end.

(** [x <= y], [x < y], [x >= y], [x > y] and [x == y] on floats: false as
  soon as one side is NaN. *)
Definition float_le (x y : float) : bool :=
  match x, y with
  | Num a, Num b => Qle_bool a b
  | Num _, Inf negative => negb negative
  | Inf negative, Num _ => negative
  | Inf s, Inf t => s || negb t
  | _, _ => false
  end.

Definition float_lt (x y : float) : bool :=
  match x, y with
  | Num a, Num b => negb (Qle_bool b a)
  | Num _, Inf negative => negb negative
  | Inf negative, Num _ => negative
  | Inf s, Inf t => s && negb t
  | _, _ => false
  end.

Definition float_ge (x y : float) : bool := float_le y x.
Definition float_gt (x y : float) : bool := float_lt y x.

Definition float_eq (x y : float) : bool :=
  match x, y with
  | Num a, Num b => Qeq_bool a b
  | Inf s, Inf t => Bool.eqb s t
  | _, _ => false
  end.

(** [x + y], [x * y] and [x / y] on floats.  NaN propagates; infinities
  follow IEEE 754 (opposite infinities add up to NaN, zero times infinity
  is NaN).  [x / y] is meant for a non-zero [y]: Python raises
  [ZeroDivisionError] on a zero divisor, and the only divisor in the source
  is the literal [100.0]. *)
Definition float_add (x y : float) : float :=
  match x, y with
  | NaN, _ | _, NaN => NaN
  | Num a, Num b => Num (a + b)
  | Inf s, Num _ | Num _, Inf s => Inf s
  | Inf s, Inf t => if Bool.eqb s t then Inf s else NaN
  end.

Definition float_mul (x y : float) : float :=
  match x, y with
  | NaN, _ | _, NaN => NaN
  | Num a, Num b => Num (a * b)
  | Inf s, Num b | Num b, Inf s =>
      if Qeq_bool b 0 then NaN else Inf (xorb s (negb (Qle_bool 0 b)))
  | Inf s, Inf t => Inf (xorb s t)
  end.

Definition float_div (x y : float) : float :=
  match x, y with
  | NaN, _ | _, NaN => NaN
  | Num a, Num b => Num (a / b)
  | Inf s, Num b => Inf (xorb s (negb (Qle_bool 0 b)))
  | Num _, Inf _ => Num 0
  | Inf _, Inf _ => NaN
  end.

(** [x] and [y] are the same value: equal numbers, the same infinity, or
  both NaN (on which Python's [==] is false). *)
Definition float_same (x y : float) : Prop :=
  match x, y with
  | Num a, Num b => a == b
  | Inf s, Inf t => s = t
  | NaN, NaN => True
  | _, _ => False
  end.

(** Built-in [max(a, b)]: the first argument unless the second is
    strictly greater.  Built-in [min(a, b)]: the first argument unless
    the second is strictly smaller. *)
Definition max (a b : float) : float := if float_gt b a then b else a.
Definition min (a b : float) : float := if float_lt b a then b else a.

(** Built-in [sorted(l, key=key, reverse=True)]: a stable sort by
    decreasing key.  [insert_desc x l] places [x], which precedes every
    element of [l] in the input, in front of the first element whose key
    is not strictly greater, so that elements with equal keys keep their
    input order.  This is Python's result whenever no key is NaN; with a
    NaN key Python only promises some rearrangement of the input, whose
    order depends on the comparisons its algorithm happens to make. *)
Fixpoint insert_desc {A} (key : A -> float) (x : A) (l : list A) : list A :=
  match l with
  | [] => [x]
  | y :: l' =>
      if float_gt (key y) (key x) then y :: insert_desc key x l'
      else x :: y :: l'
  end.

Definition sorted_reverse {A} (key : A -> float) (l : list A) : list A :=
  fold_right (insert_desc key) [] l.

(** Integer floor division [a // b]; [None] stands for
    [ZeroDivisionError]. *)
Definition floordiv (a b : Z) : option Z :=
  if (b =? 0)%Z then None else Some (a / b)%Z.

(** The Python values that occur in the result dictionaries of the tools.
  A [dict] is kept as the list of its items in insertion order. *)
Inductive PyValue :=
| PyBool (b : bool)
| PyInt (n : Z)
| PyFloat (x : float)
| PyStr (s : string)
| PyList (items : list PyValue)
| PyDict (items : list (string * PyValue)).

(** [d.get(key)] on the items of a dict whose keys are distinct. *)
Fixpoint dict_get (key : string) (d : list (string * PyValue)) : option PyValue :=
  match d with
  | [] => None
  | (k, v) :: d' => if String.eqb k key then Some v else dict_get key d'
  end.

(** [key in d] *)
Definition dict_contains (key : string) (d : list (string * PyValue)) : bool :=
  match dict_get key d with
  | Some _ => true
  | None => false
  end.

End Py.

Coercion Py.Num : Q >-> Py.float.

Declare Scope pyfloat_scope.
Delimit Scope pyfloat_scope with F.
Bind Scope pyfloat_scope with Py.float.

Notation "x + y" := (Py.float_add x y) : pyfloat_scope.
Notation "x * y" := (Py.float_mul x y) : pyfloat_scope.
Notation "x / y" := (Py.float_div x y) : pyfloat_scope.
Notation "x <= y" := (Py.float_le x y = true) : pyfloat_scope.
Notation "x < y" := (Py.float_lt x y = true) : pyfloat_scope.
Notation "x == y" := (Py.float_eq x y = true) : pyfloat_scope.
Notation "x <= y <= z" :=
  (Py.float_le x y = true /\ Py.float_le y z = true) : pyfloat_scope.

Local Open Scope pyfloat_scope.

(** ** tools/market_tools.py *)

Module MarketTools.

Import Py.

Inductive ModelCategory :=
| LLM
| IMAGE_GEN
| EMBEDDING
| AUDIO
| MULTIMODAL.

(** The string value of each enumeration member. *)
Definition ModelCategory_value (c : ModelCategory) : string :=
  match c with
  | LLM => "llm"
  | IMAGE_GEN => "image_generation"
  | EMBEDDING => "embedding"
  | AUDIO => "audio"
  | MULTIMODAL => "multimodal"
  end.

(** [measurement_timestamp] is an optional datetime, kept here as an
    optional number of seconds; it is never read by the scoring code. *)
Record PerformanceMetrics := {
  avg_latency_ms : float;
  p95_latency_ms : float;
  p99_latency_ms : float;
  tokens_per_second : float;
  requests_per_minute : float;
  accuracy_score : float;
  benchmark_score : float;
  uptime_percentage : float;
  error_rate : float;
  cost_per_1k_tokens : float;
  measurement_timestamp : option Z;
  sample_size : Z
}.

(** [PerformanceMetrics()]: every field at its dataclass default. *)
Definition PerformanceMetrics_default : PerformanceMetrics := {|
  avg_latency_ms := 0.0;
  p95_latency_ms := 0.0;
  p99_latency_ms := 0.0;
  tokens_per_second := 0.0;
  requests_per_minute := 0.0;
  accuracy_score := 0.0;
  benchmark_score := 0.0;
  uptime_percentage := 0.0;
  error_rate := 0.0;
  cost_per_1k_tokens := 0.0;
  measurement_timestamp := None;
  sample_size := 0
|}.

Record QScoreResult := {
  model_id : string;
  q_score : float;
  category : ModelCategory;
  metrics : PerformanceMetrics;
  latency_score : float;
  throughput_score : float;
  quality_score : float;
  reliability_score : float;
  recommendations : list string;
  mint_eligible : bool
}.

Record MarketAnalysis := {
  total_models : Z;
  avg_q_score : float;
  top_performers : list string;
  market_liquidity : float;
  price_trend : string
}.

Definition MarketAnalysis_default : MarketAnalysis := {|
  total_models := 0;
  avg_q_score := 0.0;
  top_performers := [];
  market_liquidity := 0.0;
  price_trend := "stable"
|}.

(** The analyzer instance: its only state is the metrics cache. *)
Record QScoreAnalyzerTool := {
  _metrics_cache : gmap string PerformanceMetrics
}.

(** [QScoreAnalyzerTool()] *)
Definition QScoreAnalyzerTool_init : QScoreAnalyzerTool :=
  {| _metrics_cache := ∅ |}.

Definition MIN_SCORE_FOR_MINT : float := 50.
Definition EXCELLENT_THRESHOLD : float := 80.
Definition GOOD_THRESHOLD : float := 60.

Definition LATENCY_WEIGHT : float := 0.25.
Definition THROUGHPUT_WEIGHT : float := 0.25.
Definition QUALITY_WEIGHT : float := 0.25.
Definition RELIABILITY_WEIGHT : float := 0.25.

Definition _calculate_latency_score (metrics : PerformanceMetrics) : float :=
  let latency := avg_latency_ms metrics in
  if float_le latency 0 then 0.0
  else if float_lt latency 50 then 1.0
  else if float_lt latency 100 then 0.8
  else if float_lt latency 200 then 0.6
  else if float_lt latency 500 then 0.4
  else if float_lt latency 1000 then 0.2
  else 0.0.

Definition _calculate_throughput_score (metrics : PerformanceMetrics) : float :=
  let tps := tokens_per_second metrics in
  if float_ge tps 1000 then 1.0
  else if float_ge tps 500 then 0.8
  else if float_ge tps 200 then 0.6
  else if float_ge tps 100 then 0.4
  else if float_ge tps 50 then 0.2
  else 0.0.

Definition _calculate_quality_score (metrics : PerformanceMetrics) : float :=
  let accuracy := min (max (accuracy_score metrics) 0.0) 1.0 in
  let benchmark := min (max (benchmark_score metrics / 100.0) 0.0) 1.0 in
  accuracy * 0.6 + benchmark * 0.4.

Definition _calculate_reliability_score (metrics : PerformanceMetrics) : float :=
  let uptime := uptime_percentage metrics in
  let uptime_score : float :=
    if float_ge uptime 99.9 then 1.0
    else if float_ge uptime 99 then 0.9
    else if float_ge uptime 95 then 0.5
    else if float_ge uptime 90 then 0.2
    else 0.0 in
  let error_rate := error_rate metrics in
  let error_score : float :=
    if float_le error_rate 0 then 1.0
    else if float_le error_rate 0.01 then 0.9
    else if float_le error_rate 0.05 then 0.5
    else if float_lt error_rate 0.10 then 0.2
    else 0.0 in
  uptime_score * 0.5 + error_score * 0.5.

(** The list [recommendations] is built by successive [append] calls;
    each step below is one statement of the source. *)
Definition _generate_recommendations
    (q_score latency throughput quality reliability : float) : list string :=
  let recommendations : list string := [] in
  let recommendations :=
    if float_lt latency 0.5
    then recommendations ++ ["Consider optimizing inference latency"]
    else recommendations in
  let recommendations :=
    if float_lt throughput 0.5
    then recommendations ++ ["Throughput could be improved with batching"]
    else recommendations in
  let recommendations :=
    if float_lt quality 0.5
    then recommendations ++ ["Model accuracy needs improvement"]
    else recommendations in
  let recommendations :=
    if float_lt reliability 0.5
    then recommendations ++ ["Improve uptime and reduce error rates"]
    else recommendations in
  if float_ge q_score EXCELLENT_THRESHOLD
  then recommendations ++ ["Excellent performance - eligible for premium rates"]
  else if float_ge q_score MIN_SCORE_FOR_MINT
  then recommendations ++ ["Good performance - eligible for token minting"]
  else recommendations ++ ["Below threshold - improvements needed before minting"].

(** Cache lookup; the oracle branch is not implemented in the source, so
    a miss yields the default snapshot. *)
Definition _fetch_metrics (self : QScoreAnalyzerTool) (model_id : string)
    : PerformanceMetrics :=
  match _metrics_cache self !! model_id with
  | Some m => m
  | None => PerformanceMetrics_default
  end.

Definition calculate_q_score (self : QScoreAnalyzerTool) (model_id : string)
    (metrics : option PerformanceMetrics) (category : ModelCategory)
    : QScoreResult :=
  let metrics :=
    match metrics with
    | None => _fetch_metrics self model_id
    | Some m => m
    end in
  let latency_score := _calculate_latency_score metrics in
  let throughput_score := _calculate_throughput_score metrics in
  let quality_score := _calculate_quality_score metrics in
  let reliability_score := _calculate_reliability_score metrics in
  let q_score :=
    (latency_score * LATENCY_WEIGHT +
     throughput_score * THROUGHPUT_WEIGHT +
     quality_score * QUALITY_WEIGHT +
     reliability_score * RELIABILITY_WEIGHT) * 100 in
  let mint_eligible := float_ge q_score MIN_SCORE_FOR_MINT in
  let recommendations :=
    _generate_recommendations q_score latency_score throughput_score
      quality_score reliability_score in
  {| model_id := model_id;
     q_score := q_score;
     category := category;
     metrics := metrics;
     latency_score := latency_score * 25;
     throughput_score := throughput_score * 25;
     quality_score := quality_score * 25;
     reliability_score := reliability_score * 25;
     recommendations := recommendations;
     mint_eligible := mint_eligible |}.

(** Every identifier is scored with the default arguments
    ([metrics=None], [category=ModelCategory.LLM]). *)
Definition compare_models (self : QScoreAnalyzerTool) (model_ids : list string)
    : list QScoreResult :=
  let results :=
    fold_left (fun results model_id =>
                 results ++ [calculate_q_score self model_id None LLM])
              model_ids [] in
  sorted_reverse q_score results.

Definition get_market_analysis (self : QScoreAnalyzerTool) : MarketAnalysis :=
  MarketAnalysis_default.

(** The keyword arguments read by [run], each absent or of its annotated
  type: [action] and [model_id] strings, [model_ids] a list of strings. *)
Record RunKwargs := {
  kwargs_action : option string;
  kwargs_model_id : option string;
  kwargs_model_ids : option (list string)
}.

(** [kwargs.get(key, default)] *)
Definition kwargs_get {A} (value : option A) (default : A) : A :=
  match value with
  | Some v => v
  | None => default
  end.

(** The tool entry point: dispatch on [action], default ["calculate"]. *)
Definition run (self : QScoreAnalyzerTool) (kwargs : RunKwargs)
    : list (string * PyValue) :=
  let action := kwargs_get (kwargs_action kwargs) "calculate" in
  if String.eqb action "calculate" then
    let model_id := kwargs_get (kwargs_model_id kwargs) "" in
    let result := calculate_q_score self model_id None LLM in
    [("model_id", PyStr (MarketTools.model_id result));
     ("q_score", PyFloat (q_score result));
     ("mint_eligible", PyBool (mint_eligible result));
     ("recommendations", PyList (map PyStr (recommendations result)))]
  else if String.eqb action "compare" then
    let model_ids := kwargs_get (kwargs_model_ids kwargs) [] in
    let results := compare_models self model_ids in
    [("rankings",
      PyList (map (fun r => PyDict [("model_id", PyStr (MarketTools.model_id r));
                                    ("q_score", PyFloat (q_score r))])
                  results))]
  else if String.eqb action "market" then
    let analysis := get_market_analysis self in
    [("total_models", PyInt (total_models analysis));
     ("avg_q_score", PyFloat (avg_q_score analysis));
     ("trend", PyStr (price_trend analysis))]
  else
    [("error", PyStr "Unknown action")].

End MarketTools.

(** ** tests/test_contract.py: the swap arithmetic of [TestSwapFeeLogic] *)

Module TestContract.

Import Py.

Local Open Scope Z_scope.

(** [test_fee_is_0_3_percent]: [expected_fee = amount * 3 // 1000]. *)
Definition fee_of (amount : Z) : option Z := floordiv (amount * 3) 1000.

Definition test_fee_is_0_3_percent : option bool :=
  let amount := 10000000 in
  match fee_of amount with
  | Some expected_fee => Some (expected_fee =? 30000)
  | None => None
  end.

(** [test_buy_compute_formula]: the three assignments
    [fee = gas_amount * 3 // 1000], [net = gas_amount - fee],
    [compute = net * ONE_TOKEN // price], returned as a triple.
    [ONE_TOKEN] is imported from the contract module by the test. *)
Definition buy_compute_formula (ONE_TOKEN gas_amount price : Z)
    : option (Z * Z * Z) :=
  match floordiv (gas_amount * 3) 1000 with
  | None => None
  | Some fee =>
      let net := gas_amount - fee in
      match floordiv (net * ONE_TOKEN) price with
      | None => None
      | Some compute => Some (fee, net, compute)
      end
  end.

(** The two assertions closing the test. *)
Definition test_buy_compute_formula (ONE_TOKEN : Z) : option bool :=
  let gas_amount := 100000000 in
  let price := 50000000 in
  match buy_compute_formula ONE_TOKEN gas_amount price with
  | None => None
  | Some (_, _, compute) =>
      match floordiv (ONE_TOKEN * 19) 10 with
      | None => None
      | Some lo => Some ((lo <? compute) && (compute <? ONE_TOKEN * 2))
      end
  end.

End TestContract.

(** ** The pricing engine of the token contract *)

Module Pricing.

Local Open Scope Z_scope.

(** Modelled from the spec: the contract module [contracts/chatten_token.py]
    is not among the sources; the token has 8 fractional digits. *)
Definition TOKEN_DECIMALS : Z := 8.

(** Modelled from the spec: one whole token unit is 10^8 smallest units
    (the contract constant [ONE_TOKEN] asserted by the tests). *)
Definition ONE_TOKEN : Z := 10 ^ TOKEN_DECIMALS.

(** Modelled from the spec: the fee rate of the absent contract is the
    fixed protocol constant 3/1000; this is its numerator. *)
Definition FEE_NUMERATOR : Z := 3.

(** Modelled from the spec: the denominator of the fee rate 3/1000 of the
    absent contract. *)
Definition FEE_DENOMINATOR : Z := 1000.

(** Modelled from the spec: the explicit error of the absent pricing
    functions on an invalid (zero or negative) price. *)
Inductive PricingError :=
| InvalidPrice.

(** Modelled from the spec: the outcome of a quote of the absent contract,
    a numeric amount or an explicit error. *)
Inductive Quote :=
| QuoteOk (amountOut : Z)
| QuoteFail (e : PricingError).

(** Modelled from the spec: the fee on an input amount, by integer floor
    division on smallest units. *)
Definition swapFee (amountIn : Z) : Z :=
  amountIn * FEE_NUMERATOR / FEE_DENOMINATOR.

(** Modelled from the spec: [quoteBuy] of the absent contract.  A zero or
    negative price is an error; otherwise fee, net and output follow the
    floor-division formulas. *)
Definition quoteBuy (baseAmountIn price : Z) : Quote :=
  if price <=? 0 then QuoteFail InvalidPrice
  else
    let fee := swapFee baseAmountIn in
    let net := baseAmountIn - fee in
    QuoteOk (net * ONE_TOKEN / price).

(** Modelled from the spec: [quoteSell] of the absent contract, the
    structural inverse of [quoteBuy]: fee and net on the token leg, output
    in base-asset smallest units, same failure on an invalid price. *)
Definition quoteSell (tokenAmountIn price : Z) : Quote :=
  if price <=? 0 then QuoteFail InvalidPrice
  else
    let fee := swapFee tokenAmountIn in
    let net := tokenAmountIn - fee in
    QuoteOk (net * price / ONE_TOKEN).

End Pricing.

(** ** agents/chatten_trader.py *)

Module ChattenTrader.

Import Py.

(** What awaiting a helper does: it returns a value, or raises an exception
  (of class [Exception]) whose [str] is the message. *)
Inductive Outcome (A : Type) :=
| Returned (value : A)
| Raised (message : string).

Arguments Returned {A} value.
Arguments Raised {A} message.

(** The keyword arguments read by [BuyComputeTool.run], each absent or of
  its documented type: [model_id] a string, [gas_amount] a float. *)
Record BuyKwargs := {
  kwargs_model_id : option string;
  kwargs_gas_amount : option float
}.

(** [BuyComputeTool.run].  The purchase itself, [buy_credits], talks to the
  chain and is a parameter of the model: [run] awaits it at most once, after
  its two checks, and returns what it returns or the dictionary built from
  the exception it raises. *)
Definition BuyComputeTool_run
    (buy_credits : string -> float -> Outcome (list (string * PyValue)))
    (kwargs : BuyKwargs) : list (string * PyValue) :=
  let model_id :=
    match kwargs_model_id kwargs with Some v => v | None => "" end in
  let gas_amount :=
    match kwargs_gas_amount kwargs with Some v => v | None => 0.0 end in
  if String.eqb model_id ""
  then [("error", PyStr "model_id is required"); ("success", PyBool false)]
  else if float_le gas_amount 0
  then [("error", PyStr "gas_amount must be greater than 0");
        ("success", PyBool false)]
  else
    match buy_credits model_id gas_amount with
    | Returned result => result
    | Raised message => [("error", PyStr message); ("success", PyBool false)]
    end.

End ChattenTrader.

(** ** Reference definitions taken from the specification's wording *)

Module Spec.

Import Py.

(** [clamp x lo hi]: [x] limited to the interval from [lo] to [hi]. *)
Definition clamp (x lo hi : float) : float :=
  if float_lt x lo then lo else if float_lt hi x then hi else x.

(** The quality fraction as the specification writes it. *)
Definition quality_fraction (accuracy benchmark : float) : float :=
  clamp accuracy 0 1 * 0.6 + clamp (benchmark / 100) 0 1 * 0.4.

(** The mint gate as the specification writes it. *)
Definition canMint (compositeScore : float) : Prop := 50 <= compositeScore.

(** One advisory for a component fraction below 0.5, none otherwise. *)
Definition advisory (fraction : float) (text : string) : list string :=
  if float_lt fraction 0.5 then [text] else [].

(** In a list sorted by decreasing key, [a] may stand before [b]. *)
Definition key_ge {A} (key : A -> float) (a b : A) : Prop := key b <= key a.

(** The test selecting the elements whose key equals [v]. *)
Definition has_key {A} (key : A -> float) (v : float) (a : A) : bool :=
  float_eq (key a) v.

(** The snapshot has numbers, not NaN, for accuracy and benchmark. *)
Definition numeric_quality (m : MarketTools.PerformanceMetrics) : Prop :=
  is_nan (MarketTools.accuracy_score m) = false /\
  is_nan (MarketTools.benchmark_score m) = false.

End Spec.

(** ** Snapshots used in examples *)

Module Fixtures.

Import MarketTools.

(** A snapshot that only sets the fields read by the scoring code. *)
Definition snapshot (latency tps accuracy benchmark uptime errors : Py.float)
    : PerformanceMetrics :=
  {| avg_latency_ms := latency;
     p95_latency_ms := 0.0;
     p99_latency_ms := 0.0;
     tokens_per_second := tps;
     requests_per_minute := 0.0;
     accuracy_score := accuracy;
     benchmark_score := benchmark;
     uptime_percentage := uptime;
     error_rate := errors;
     cost_per_1k_tokens := 0.0;
     measurement_timestamp := None;
     sample_size := 0 |}.

(** The fixtures of [tests/conftest.py]. *)
Definition sample_performance_metrics : PerformanceMetrics :=
  {| avg_latency_ms := 50.0;
     p95_latency_ms := 100.0;
     p99_latency_ms := 200.0;
     tokens_per_second := 1000.0;
     requests_per_minute := 600.0;
     accuracy_score := 0.95;
     benchmark_score := 85.0;
     uptime_percentage := 99.9;
     error_rate := 0.001;
     cost_per_1k_tokens := 0.002;
     measurement_timestamp := None;
     sample_size := 1000 |}.

Definition sample_poor_metrics : PerformanceMetrics :=
  {| avg_latency_ms := 500.0;
     p95_latency_ms := 1000.0;
     p99_latency_ms := 2000.0;
     tokens_per_second := 100.0;
     requests_per_minute := 60.0;
     accuracy_score := 0.60;
     benchmark_score := 40.0;
     uptime_percentage := 90.0;
     error_rate := 0.10;
     cost_per_1k_tokens := 0.01;
     measurement_timestamp := None;
     sample_size := 100 |}.

End Fixtures.

(** * Properties *)

(** ** Comparison lemmas *)

Section FloatFacts.

Import Py.

Lemma Qle_bool_spec (a b : Q) : reflect (a <= b)%Q (Qle_bool a b).
Proof. apply iff_reflect. symmetry. apply Qle_bool_iff. Qed.

Lemma float_le_Num (a b : Q) : Num a <= Num b <-> (a <= b)%Q.
Proof. apply Qle_bool_iff. Qed.

Lemma float_lt_Num (a b : Q) : Num a < Num b <-> (a < b)%Q.
Proof.
  cbn [float_lt]. destruct (Qle_bool_spec b a) as [H|H]; cbn [negb].
  - split; [discriminate | intros Hlt; exfalso; apply (Qlt_not_le _ _ Hlt H)].
  - split; [intros _; apply Qnot_le_lt; exact H | reflexivity].
Qed.

Lemma float_eq_Num (a b : Q) : Num a == Num b <-> (a == b)%Q.
Proof. apply Qeq_bool_iff. Qed.

End FloatFacts.

(** Case analysis on every comparison of rationals in the goal, turning each
  outcome into an order fact. *)
Ltac q_case :=
  let Hc := fresh "Hcmp" in
  match goal with
  | |- context [Qle_bool ?a ?b] =>
      destruct (Qle_bool_spec a b) as [Hc|Hc];
      [| apply Qnot_le_lt in Hc]; cbn [negb andb orb]
  end.

Ltac q_hyps :=
  repeat match goal with
         | H : Qeq_bool _ _ = true |- _ => apply Qeq_bool_iff in H
         | H : Qeq_bool _ _ = false |- _ => apply Qeq_bool_neq in H
         | H : _ /\ _ |- _ => destruct H
         end.

(** Closes a goal on rationals once every comparison has been decided. *)
Ltac q_done :=
  intros; q_hyps; try discriminate; try contradiction;
  first [ reflexivity
        | exfalso; lra
        | apply Qeq_bool_iff; lra
        | lra
        | exact I
        | match goal with
          | H : ~ _ |- _ => exfalso; apply H; first [reflexivity | lra]
          end ].

(** Computes the float operations on constructors. *)
Ltac float_cbn :=
  cbn [Py.float_le Py.float_lt Py.float_ge Py.float_gt Py.float_eq
       Py.float_add Py.float_mul Py.float_div Py.float_same Py.is_nan
       Py.max Py.min negb andb orb xorb Bool.eqb].

(** Decides a goal about floats whose arguments are constructors. *)
Ltac float_solve := float_cbn; repeat q_case; repeat split; q_done.

Section FloatOrder.

Import Py.

Lemma float_le_trans (x y z : float) : x <= y -> y <= z -> x <= z.
Proof. destruct x as [a|[|]|], y as [b|[|]|], z as [c|[|]|]; float_solve. Qed.

Lemma float_lt_le (x y : float) : x < y -> x <= y.
Proof. destruct x as [a|[|]|], y as [b|[|]|]; float_solve. Qed.

Lemma float_le_not_gt (x y : float) : x <= y -> float_gt x y = false.
Proof. unfold float_gt. destruct x as [a|[|]|], y as [b|[|]|]; float_solve. Qed.

Lemma float_not_gt_le (x y : float) :
  is_nan x = false -> is_nan y = false -> float_gt x y = false -> x <= y.
Proof. unfold float_gt. destruct x as [a|[|]|], y as [b|[|]|]; float_solve. Qed.

Lemma float_gt_le (x y : float) : float_gt x y = true -> y <= x.
Proof. unfold float_gt. apply float_lt_le. Qed.

Lemma float_gt_asym (x y : float) : float_gt x y = true -> float_gt y x = false.
Proof. unfold float_gt. destruct x as [a|[|]|], y as [b|[|]|]; float_solve. Qed.

Lemma float_le_antisym (x y : float) : x <= y -> y <= x -> float_same x y.
Proof. destruct x as [a|[|]|], y as [b|[|]|]; float_solve. Qed.

Lemma float_le_refl (x : float) : is_nan x = false -> x <= x.
Proof. destruct x as [a|[|]|]; float_solve. Qed.

Lemma float_le_not_nan (x y : float) :
  x <= y -> is_nan x = false /\ is_nan y = false.
Proof. destruct x as [a|[|]|], y as [b|[|]|]; float_solve. Qed.

Lemma float_eq_not_gt (x y v : float) : x == v -> y == v -> float_gt x y = false.
Proof.
  unfold float_gt.
  destruct x as [a|[|]|], y as [b|[|]|], v as [c|[|]|]; float_solve.
Qed.

Lemma float_eq_same (x y : float) : x == y -> float_same x y.
Proof. destruct x as [a|[|]|], y as [b|[|]|]; float_solve. Qed.

Lemma float_same_refl (x : float) : float_same x x.
Proof. destruct x as [a|[|]|]; float_solve. Qed.

Lemma float_same_sym (x y : float) : float_same x y -> float_same y x.
Proof. destruct x as [a|[|]|], y as [b|[|]|]; float_solve. Qed.

Lemma float_same_trans (x y z : float) :
  float_same x y -> float_same y z -> float_same x z.
Proof. destruct x as [a|[|]|], y as [b|[|]|], z as [c|[|]|]; float_solve. Qed.

Lemma float_lt_compat (x x' y y' : float) :
  float_same x x' -> float_same y y' -> float_lt x y = float_lt x' y'.
Proof.
  destruct x as [a|[|]|], x' as [a'|[|]|], y as [b|[|]|], y' as [b'|[|]|];
    float_solve.
Qed.

Lemma float_le_compat (x x' y y' : float) :
  float_same x x' -> float_same y y' -> float_le x y = float_le x' y'.
Proof.
  destruct x as [a|[|]|], x' as [a'|[|]|], y as [b|[|]|], y' as [b'|[|]|];
    float_solve.
Qed.

End FloatOrder.

(** ** The Q-score calculator *)

Section ScoreCalculator.

Import Py MarketTools Fixtures.

Example latency_score_boundaries :
  _calculate_latency_score (snapshot 49.999 0 0 0 0 0) = 1.0 /\
  _calculate_latency_score (snapshot 50 0 0 0 0 0) = 0.8 /\
  _calculate_latency_score (snapshot 99.999 0 0 0 0 0) = 0.8 /\
  _calculate_latency_score (snapshot 100 0 0 0 0 0) = 0.6 /\
  _calculate_latency_score (snapshot 0 0 0 0 0 0) = 0.0 /\
  _calculate_latency_score (snapshot 2000 0 0 0 0 0) = 0.0.
Proof. repeat split; reflexivity. Qed.

Example fixture_scores :
  _calculate_latency_score sample_performance_metrics = 0.8 /\
  _calculate_throughput_score sample_performance_metrics = 1.0 /\
  _calculate_quality_score sample_performance_metrics == 0.91 /\
  0.9 <= _calculate_reliability_score sample_performance_metrics /\
  _calculate_reliability_score sample_poor_metrics < 0.5.
Proof. repeat split; reflexivity. Qed.

Example weights_sum_to_one :
  LATENCY_WEIGHT + THROUGHPUT_WEIGHT + QUALITY_WEIGHT + RELIABILITY_WEIGHT == 1.0.
Proof. reflexivity. Qed.

(** What the scores do with NaN and infinite inputs: a NaN latency,
  throughput, uptime or error rate scores 0 in its component, a NaN accuracy
  makes the quality score NaN, infinities count as numbers beyond every
  threshold. *)
Example special_values :
  _calculate_latency_score (snapshot NaN 0 0 0 0 0) = 0.0 /\
  _calculate_throughput_score (snapshot 0 NaN 0 0 0 0) = 0.0 /\
  _calculate_reliability_score (snapshot 0 0 0 0 NaN NaN) == 0 /\
  _calculate_quality_score (snapshot 0 0 NaN 0 0 0) = NaN /\
  _calculate_quality_score (snapshot 0 0 0 NaN 0 0) = NaN /\
  _calculate_quality_score (snapshot 0 0 (Inf false) (Inf false) 0 0) == 1 /\
  _calculate_quality_score (snapshot 0 0 (Inf true) (Inf true) 0 0) == 0 /\
  _calculate_latency_score (snapshot (Inf false) 0 0 0 0 0) = 0.0 /\
  _calculate_throughput_score (snapshot 0 (Inf false) 0 0 0 0) = 1.0.
Proof. repeat split; reflexivity. Qed.

End ScoreCalculator.

(** ** Values of the component fractions *)

Section ComponentValues.

Import Py MarketTools.

Lemma latency_score_num (m : PerformanceMetrics) :
  exists a : Q, _calculate_latency_score m = Num a /\ (0 <= a <= 1)%Q.
Proof.
  unfold _calculate_latency_score. cbv zeta.
  destruct (avg_latency_ms m) as [l|[|]|]; float_cbn; repeat q_case;
    eexists; (split; [reflexivity | lra]).
Qed.

Lemma throughput_score_num (m : PerformanceMetrics) :
  exists a : Q, _calculate_throughput_score m = Num a /\ (0 <= a <= 1)%Q.
Proof.
  unfold _calculate_throughput_score. cbv zeta.
  destruct (tokens_per_second m) as [t|[|]|]; float_cbn; repeat q_case;
    eexists; (split; [reflexivity | lra]).
Qed.

Lemma reliability_score_num (m : PerformanceMetrics) :
  exists a : Q, _calculate_reliability_score m = Num a /\ (0 <= a <= 1)%Q.
Proof.
  unfold _calculate_reliability_score. cbv zeta.
  destruct (uptime_percentage m) as [u|[|]|], (error_rate m) as [e|[|]|];
    float_cbn; repeat q_case;
    eexists; (split; [reflexivity | lra]).
Qed.

(** Python's [min(max(x, 0.0), 1.0)] of a float that is not NaN is a number
  between 0 and 1; it agrees with the clamp of the specification, also on
  NaN, which both leave as it is. *)
Lemma min_max_num (x : float) :
  is_nan x = false ->
  exists c : Q, min (max x 0.0) 1.0 = Num c /\ (0 <= c <= 1)%Q.
Proof.
  destruct x as [a|[|]|]; intros Hnan; try discriminate Hnan;
    unfold max, min; float_cbn; repeat q_case; float_cbn; repeat q_case;
    eexists; (split; [reflexivity | lra]).
Qed.

Lemma min_max_clamp (x : float) :
  float_same (min (max x 0.0) 1.0) (Spec.clamp x 0 1).
Proof.
  unfold Spec.clamp, max, min.
  destruct x as [a|[|]|]; float_cbn; repeat q_case; float_cbn; repeat q_case;
    float_cbn; q_done.
Qed.

Lemma min_max_nan (x : float) :
  is_nan x = true -> min (max x 0.0) 1.0 = NaN.
Proof. destruct x; intros H; try discriminate H. reflexivity. Qed.

Lemma div_100_nan (x : float) : is_nan (x / 100.0) = is_nan x.
Proof. destruct x as [a|[|]|]; reflexivity. Qed.

Lemma div_100_same (x : float) : float_same (x / 100.0) (x / 100).
Proof.
  destruct x as [a|[|]|]; float_cbn; try reflexivity.
  apply Qmult_comp; reflexivity.
Qed.

(** The quality score is a number between 0 and 1 when accuracy and
  benchmark are not NaN, and NaN as soon as one of them is. *)
Lemma quality_score_cases (m : PerformanceMetrics) :
  (Spec.numeric_quality m /\
   exists c : Q, _calculate_quality_score m = Num c /\ (0 <= c <= 1)%Q) \/
  ((is_nan (accuracy_score m) = true \/ is_nan (benchmark_score m) = true) /\
   _calculate_quality_score m = NaN).
Proof.
  unfold _calculate_quality_score, Spec.numeric_quality. cbv zeta.
  destruct (is_nan (accuracy_score m)) eqn:Ha.
  { right. split; [left; reflexivity|].
    rewrite (min_max_nan _ Ha). reflexivity. }
  destruct (is_nan (benchmark_score m)) eqn:Hb.
  { right. split; [right; reflexivity|].
    rewrite (min_max_nan (benchmark_score m / 100.0))
      by (rewrite div_100_nan; exact Hb).
    destruct (min (max (accuracy_score m) 0.0) 1.0) as [?|?|]; reflexivity. }
  left. split; [split; reflexivity|].
  destruct (min_max_num _ Ha) as (a & -> & Hra).
  assert (Hb' : is_nan (benchmark_score m / 100.0) = false)
    by (rewrite div_100_nan; exact Hb).
  destruct (min_max_num _ Hb') as (b & -> & Hrb).
  float_cbn. eexists. split; [reflexivity | lra].
Qed.

Lemma quality_score_num (m : PerformanceMetrics) :
  Spec.numeric_quality m ->
  exists c : Q, _calculate_quality_score m = Num c /\ (0 <= c <= 1)%Q.
Proof.
  intros [Ha Hb].
  destruct (quality_score_cases m) as [[_ H]|[[H|H] _]]; [exact H| |];
    congruence.
Qed.

End ComponentValues.

(** ** The composite and its parts *)

Section ScoreProperties.

Import Py MarketTools Fixtures.

Variable self : QScoreAnalyzerTool.

Lemma composite_num (a b c d : Q) :
  (Num a * LATENCY_WEIGHT + Num b * THROUGHPUT_WEIGHT +
   Num c * QUALITY_WEIGHT + Num d * RELIABILITY_WEIGHT) * 100
  = Num ((a * 0.25 + b * 0.25 + c * 0.25 + d * 0.25) * 100).
Proof. reflexivity. Qed.

Lemma composite_nan (a b d : Q) :
  (Num a * LATENCY_WEIGHT + Num b * THROUGHPUT_WEIGHT +
   NaN * QUALITY_WEIGHT + Num d * RELIABILITY_WEIGHT) * 100 = NaN.
Proof. reflexivity. Qed.

(** C1: for every snapshot, supplied or fetched, the result records that
    snapshot and its composite is
    (latency*0.25 + throughput*0.25 + quality*0.25 + reliability*0.25) * 100
    over the four component fractions of that snapshot; each component
    field of the result is its fraction times 25, and the composite is the
    same value as the sum of the four component fields.  When accuracy and
    benchmark are not NaN all of these are numbers: the composite equals the
    sum of the fields, each fraction lies between 0 and 1, each field
    between 0 and 25 and the composite between 0 and 100.  (With a NaN
    accuracy or benchmark the quality fraction, its field, the composite and
    the sum of the fields are all NaN.) *)
Theorem calculate_q_score_composite
    (model_id : string) (supplied : option PerformanceMetrics)
    (category : ModelCategory) :
  let scored :=
    match supplied with
    | Some m => m
    | None => _fetch_metrics self model_id
    end in
  let r := calculate_q_score self model_id supplied category in
  let latency_frac := _calculate_latency_score scored in
  let throughput_frac := _calculate_throughput_score scored in
  let quality_frac := _calculate_quality_score scored in
  let reliability_frac := _calculate_reliability_score scored in
  metrics r = scored /\
  q_score r =
    (latency_frac * 0.25 + throughput_frac * 0.25 +
     quality_frac * 0.25 + reliability_frac * 0.25) * 100 /\
  (latency_score r = latency_frac * 25 /\
   throughput_score r = throughput_frac * 25 /\
   quality_score r = quality_frac * 25 /\
   reliability_score r = reliability_frac * 25) /\
  float_same (q_score r)
    (latency_score r + throughput_score r + quality_score r
     + reliability_score r) /\
  (Spec.numeric_quality scored ->
   q_score r ==
     latency_score r + throughput_score r + quality_score r
     + reliability_score r /\
   (0 <= latency_frac <= 1 /\ 0 <= throughput_frac <= 1 /\
    0 <= quality_frac <= 1 /\ 0 <= reliability_frac <= 1) /\
   (0 <= latency_score r <= 25 /\ 0 <= throughput_score r <= 25 /\
    0 <= quality_score r <= 25 /\ 0 <= reliability_score r <= 25) /\
   0 <= q_score r <= 100) /\
  (is_nan (accuracy_score scored) = true \/
   is_nan (benchmark_score scored) = true ->
   quality_frac = NaN /\ q_score r = NaN).
Proof.
  cbv zeta.
  set (scored := match supplied with
                 | Some m => m
                 | None => _fetch_metrics self model_id
                 end).
  assert (Hr : calculate_q_score self model_id supplied category
               = calculate_q_score self model_id (Some scored) category).
  { unfold scored. destruct supplied; reflexivity. }
  rewrite Hr. clear Hr.
  unfold calculate_q_score.
  cbn [q_score metrics latency_score throughput_score quality_score
       reliability_score].
  destruct (latency_score_num scored) as (a & -> & Ha).
  destruct (throughput_score_num scored) as (b & -> & Hb).
  destruct (reliability_score_num scored) as (d & -> & Hd).
  split; [reflexivity|]. split; [reflexivity|].
  split; [repeat split|].
  destruct (quality_score_cases scored)
    as [[Hnum (c & -> & Hc)]|[Hnan ->]].
  - rewrite composite_num. float_cbn.
    split; [ring|].
    split.
    + intros _. repeat split; float_solve.
    + unfold Spec.numeric_quality in Hnum. intros [H|H];
        destruct Hnum as [H1 H2]; congruence.
  - rewrite composite_nan. float_cbn.
    split; [exact I|]. split; [|intros _; split; reflexivity].
    unfold Spec.numeric_quality. intros [H1 H2].
    destruct Hnan as [H|H]; congruence.
Qed.

(** The gate is exactly the comparison of the composite with the mint
    threshold. *)
Lemma mint_eligible_eq
    (model_id : string) (supplied : option PerformanceMetrics)
    (category : ModelCategory) :
  let r := calculate_q_score self model_id supplied category in
  mint_eligible r = float_ge (q_score r) MIN_SCORE_FOR_MINT.
Proof. reflexivity. Qed.

(** C3: the result is mint eligible exactly when its composite is at least
    50 (the specification's [canMint]); a snapshot whose composite is 50.0 is
    eligible and one whose composite is 49.999 is not. *)
Theorem mint_eligible_iff_composite_ge_50
    (model_id : string) (supplied : option PerformanceMetrics)
    (category : ModelCategory) :
  let r := calculate_q_score self model_id supplied category in
  let at_50 :=
    calculate_q_score self model_id (Some (snapshot 25 1000 0 0 0 1)) category in
  let below_50 :=
    calculate_q_score self model_id (Some (snapshot 25 750 0 49.99 0 1)) category in
  (mint_eligible r = true <-> Spec.canMint (q_score r)) /\
  (q_score at_50 == 50.0 /\ mint_eligible at_50 = true) /\
  (q_score below_50 == 49.999 /\ mint_eligible below_50 = false).
Proof.
  cbv zeta. split; [| split; split; reflexivity].
  rewrite mint_eligible_eq. unfold Spec.canMint, MIN_SCORE_FOR_MINT, float_ge.
  reflexivity.
Qed.

(** C4, as amended: among strictly positive latencies the latency score
    never increases when the latency grows. *)
Theorem latency_score_antitone_positive (m1 m2 : PerformanceMetrics) :
  0 < avg_latency_ms m1 ->
  avg_latency_ms m1 <= avg_latency_ms m2 ->
  _calculate_latency_score m2 <= _calculate_latency_score m1.
Proof.
  unfold _calculate_latency_score. cbv zeta.
  destruct (avg_latency_ms m1) as [a|[|]|], (avg_latency_ms m2) as [b|[|]|];
    float_solve.
Qed.

(** C5: the latency score is the tabulated step function of the average
    latency. *)
Theorem latency_score_table (m : PerformanceMetrics) :
  let L := avg_latency_ms m in
  let score := _calculate_latency_score m in
  (L <= 0 -> score = 0.0) /\
  (0 < L -> L < 50 -> score = 1.0) /\
  (50 <= L -> L < 100 -> score = 0.8) /\
  (100 <= L -> L < 200 -> score = 0.6) /\
  (200 <= L -> L < 500 -> score = 0.4) /\
  (500 <= L -> L < 1000 -> score = 0.2) /\
  (1000 <= L -> score = 0.0).
Proof.
  cbv zeta. unfold _calculate_latency_score. cbv zeta.
  destruct (avg_latency_ms m) as [l|[|]|]; float_solve.
Qed.

Lemma float_same_Num_eq (c : Q) (y : float) : float_same (Num c) y -> Num c == y.
Proof. destruct y as [b|[|]|]; float_solve. Qed.

(** The quality score is the same value as the formula of the
  specification, on every input. *)
Lemma quality_score_same (m : PerformanceMetrics) :
  float_same (_calculate_quality_score m)
    (Spec.quality_fraction (accuracy_score m) (benchmark_score m)).
Proof.
  unfold _calculate_quality_score, Spec.quality_fraction, Spec.clamp, max, min.
  cbv zeta.
  destruct (accuracy_score m) as [a|[|]|], (benchmark_score m) as [b|[|]|];
    float_cbn; try exact I;
    try (assert (Hd : (b / 100.0 == b / 100)%Q) by (apply Qmult_comp; reflexivity);
         revert Hd; generalize (b / 100.0)%Q (b / 100)%Q; intros x y Hd);
    repeat q_case; float_cbn; repeat q_case; float_cbn; q_done.
Qed.

(** C6, as amended: for every snapshot whose accuracy and benchmark are not
    NaN, also out of range, the quality fraction is
    clamp(accuracy, 0, 1) * 0.6 + clamp(benchmark / 100, 0, 1) * 0.4 and lies
    between 0 and 1; with accuracy 1.5 and benchmark 150 both clamps are 1
    and the fraction is 1. *)
Theorem quality_score_clamped (m : PerformanceMetrics) :
  Spec.numeric_quality m ->
  let quality := _calculate_quality_score m in
  quality == Spec.quality_fraction (accuracy_score m) (benchmark_score m) /\
  0 <= quality <= 1 /\
  (Spec.clamp 1.5 0 1 == 1 /\ Spec.clamp (150 / 100) 0 1 == 1 /\
   _calculate_quality_score (snapshot 0 0 1.5 150 0 0) == 1).
Proof.
  intros Hnum. cbv zeta.
  pose proof (quality_score_same m) as Hsame.
  destruct (quality_score_num m Hnum) as (c & Hc & Hrange).
  rewrite Hc in *.
  split; [apply float_same_Num_eq; exact Hsame|].
  split; [float_solve | repeat split].
Qed.

End ScoreProperties.

(** ** The stable descending sort *)

Section SortedReverse.

Import Py.

Context {A : Type} (key : A -> float).

Local Abbreviation key_ge := (Spec.key_ge key).
Local Abbreviation has_key := (Spec.has_key key).

(** No element of the list has a NaN key. *)
Local Abbreviation no_nan := (Forall (fun a : A => is_nan (key a) = false)).

Lemma insert_desc_perm (x : A) (l : list A) :
  Permutation (insert_desc key x l) (x :: l).
Proof.
  induction l as [|y l IH]; simpl.
  - apply Permutation_refl.
  - destruct (float_gt (key y) (key x)).
    + apply Permutation_trans with (y :: x :: l).
      * apply perm_skip. exact IH.
      * apply perm_swap.
    + apply Permutation_refl.
Qed.

Lemma sorted_reverse_perm (l : list A) :
  Permutation (sorted_reverse key l) l.
Proof.
  induction l as [|x l IH]; simpl.
  - apply perm_nil.
  - apply Permutation_trans with (x :: sorted_reverse key l).
    + apply insert_desc_perm.
    + apply perm_skip. exact IH.
Qed.

Lemma sorted_reverse_no_nan (l : list A) :
  no_nan l -> no_nan (sorted_reverse key l).
Proof.
  apply Permutation_Forall. apply Permutation_sym. apply sorted_reverse_perm.
Qed.

Lemma insert_desc_sorted (x : A) (l : list A) :
  is_nan (key x) = false -> no_nan l ->
  StronglySorted key_ge l -> StronglySorted key_ge (insert_desc key x l).
Proof.
  intros Hx Hl Hs. induction Hs as [|y l Hs IH Hall]; simpl.
  - constructor; constructor.
  - inversion Hl as [|? ? Hy Hl']; subst.
    destruct (float_gt (key y) (key x)) eqn:Hgt.
    + constructor; [exact (IH Hl')|].
      apply (Permutation_Forall (Permutation_sym (insert_desc_perm x l))).
      constructor; [|exact Hall].
      unfold Spec.key_ge. apply float_gt_le. exact Hgt.
    + assert (Hle : key y <= key x) by (apply float_not_gt_le; assumption).
      constructor; [constructor; assumption|].
      constructor; [exact Hle|].
      refine (List.Forall_impl _ _ Hall).
      unfold Spec.key_ge in *. intros z Hz.
      apply float_le_trans with (key y); assumption.
Qed.

Lemma sorted_reverse_sorted (l : list A) :
  no_nan l -> StronglySorted key_ge (sorted_reverse key l).
Proof.
  induction 1 as [|x l Hx Hl IH]; simpl.
  - constructor.
  - apply insert_desc_sorted; [exact Hx | | exact IH].
    apply sorted_reverse_no_nan. exact Hl.
Qed.

(** Inserting [x] does not change the order among the elements of any one
    key value, [x] coming first among those of its own key. *)
Lemma insert_desc_filter (v : float) (x : A) (l : list A) :
  List.filter (has_key v) (insert_desc key x l) =
  List.filter (has_key v) (x :: l).
Proof.
  induction l as [|y l IH]; [reflexivity|].
  cbn [insert_desc].
  destruct (float_gt (key y) (key x)) eqn:Hgt; [|reflexivity].
  cbn [List.filter] in *. rewrite IH.
  destruct (has_key v x) eqn:Ex; [|reflexivity].
  destruct (has_key v y) eqn:Ey; [|reflexivity].
  exfalso. unfold Spec.has_key in *.
  rewrite (float_eq_not_gt _ _ _ Ey Ex) in Hgt. discriminate Hgt.
Qed.

Lemma sorted_reverse_stable (v : float) (l : list A) :
  List.filter (has_key v) (sorted_reverse key l) = List.filter (has_key v) l.
Proof.
  induction l as [|x l IH]; [reflexivity|].
  cbn [sorted_reverse fold_right].
  rewrite insert_desc_filter. cbn [List.filter].
  fold (sorted_reverse key l). rewrite IH. reflexivity.
Qed.

(** A list in which a NaN key stands beside another element is not in
  decreasing key order, however it is arranged. *)
Lemma nan_key_not_sorted (l : list A) (x : A) :
  In x l -> is_nan (key x) = true -> (2 <= length l)%nat ->
  ~ StronglySorted key_ge l.
Proof.
  intros Hin Hnan Hlen Hs.
  induction Hs as [|y l Hs IH Hall]; [contradiction|].
  destruct Hin as [->|Hin].
  - destruct l as [|z l]; [cbn in Hlen; lia|].
    inversion Hall as [|? ? Hz _]; subst. unfold Spec.key_ge in Hz.
    apply float_le_not_nan in Hz. destruct Hz as [_ Hz]. congruence.
  - apply (proj1 (List.Forall_forall _ _) Hall) in Hin.
    unfold Spec.key_ge in Hin. apply float_le_not_nan in Hin.
    destruct Hin as [Hin _]. congruence.
Qed.

End SortedReverse.

Example sorted_reverse_run :
  Py.sorted_reverse (fun p : string * Q => Py.Num (snd p))
    [("a", 1%Q); ("b", 3%Q); ("c", 1%Q); ("d", 2%Q); ("e", 3%Q)]
  = [("b", 3%Q); ("e", 3%Q); ("d", 2%Q); ("a", 1%Q); ("c", 1%Q)].
Proof. reflexivity. Qed.

(** ** The market aggregator *)

Section CompareModels.

Import Py MarketTools Fixtures.

Variable self : QScoreAnalyzerTool.

(** The loop of [compare_models] scores the identifiers one by one, in
    order. *)
Lemma compare_models_loop (model_ids : list string) (acc : list QScoreResult) :
  fold_left (fun results model_id =>
               results ++ [calculate_q_score self model_id None LLM])
            model_ids acc
  = acc ++ map (fun model_id => calculate_q_score self model_id None LLM) model_ids.
Proof.
  revert acc. induction model_ids as [|model_id ids IH]; intros acc; simpl.
  - symmetry. apply app_nil_r.
  - rewrite IH. rewrite <- app_assoc. reflexivity.
Qed.

Lemma compare_models_unfold (model_ids : list string) :
  compare_models self model_ids =
  sorted_reverse q_score
    (map (fun model_id => calculate_q_score self model_id None LLM) model_ids).
Proof. unfold compare_models. rewrite compare_models_loop. reflexivity. Qed.

Lemma model_id_calculate_q_score (model_ids : list string) :
  map model_id
    (map (fun model_id => calculate_q_score self model_id None LLM) model_ids)
  = model_ids.
Proof.
  induction model_ids as [|i ids IH]; simpl; [reflexivity|].
  rewrite IH. reflexivity.
Qed.

(** The composite of a snapshot with numeric accuracy and benchmark is a
  number. *)
Lemma q_score_not_nan (model_id : string) (category : ModelCategory) :
  Spec.numeric_quality (_fetch_metrics self model_id) ->
  is_nan (q_score (calculate_q_score self model_id None category)) = false.
Proof.
  intros Hnum. unfold calculate_q_score. cbn [q_score].
  destruct (latency_score_num (_fetch_metrics self model_id)) as (a & -> & _).
  destruct (throughput_score_num (_fetch_metrics self model_id)) as (b & -> & _).
  destruct (reliability_score_num (_fetch_metrics self model_id)) as (d & -> & _).
  destruct (quality_score_num _ Hnum) as (c & -> & _).
  reflexivity.
Qed.

Lemma scored_no_nan (model_ids : list string) :
  Forall (fun model_id => Spec.numeric_quality (_fetch_metrics self model_id))
    model_ids ->
  Forall (fun r => is_nan (q_score r) = false)
    (map (fun model_id => calculate_q_score self model_id None LLM) model_ids).
Proof.
  induction 1 as [|model_id ids Hid _ IH]; constructor; [|exact IH].
  apply q_score_not_nan. exact Hid.
Qed.

(** C7, as amended: [compare_models] returns one result per identifier
    (the results are a rearrangement of the scored identifiers); when the
    snapshot of every identifier has accuracy and benchmark that are not
    NaN, so that no composite is NaN, the results are in decreasing order of
    composite and the results of equal composite keep the order in which
    their identifiers were given. *)
Theorem compare_models_sorted_stable (model_ids : list string) :
  let scored :=
    map (fun model_id => calculate_q_score self model_id None LLM) model_ids in
  let results := compare_models self model_ids in
  length results = length model_ids /\
  Permutation results scored /\
  Permutation (map model_id results) model_ids /\
  (Forall (fun model_id => Spec.numeric_quality (_fetch_metrics self model_id))
     model_ids ->
   StronglySorted (fun a b => q_score b <= q_score a) results /\
   forall composite : float,
     List.filter (fun r => float_eq (q_score r) composite) results =
     List.filter (fun r => float_eq (q_score r) composite) scored).
Proof.
  cbv zeta. rewrite compare_models_unfold.
  set (scored := map _ model_ids).
  assert (Hperm : Permutation (sorted_reverse q_score scored) scored)
    by apply sorted_reverse_perm.
  split; [|split; [exact Hperm|split]].
  - rewrite (Permutation_length Hperm). unfold scored. apply length_map.
  - apply Permutation_trans with (map model_id scored).
    + apply Permutation_map. exact Hperm.
    + unfold scored. rewrite model_id_calculate_q_score. apply Permutation_refl.
  - intros Hnum. split.
    + apply (sorted_reverse_sorted q_score). apply scored_no_nan. exact Hnum.
    + intros composite. apply (sorted_reverse_stable q_score).
Qed.

End CompareModels.

(** ** The recommendation engine *)

Section Recommendations.

Import Py MarketTools.

Lemma advisory_step (fraction : float) (text : string) (acc : list string) :
  (if float_lt fraction 0.5 then acc ++ [text] else acc)
  = acc ++ Spec.advisory fraction text.
Proof.
  unfold Spec.advisory. destruct (float_lt fraction 0.5); [reflexivity|].
  symmetry. apply app_nil_r.
Qed.

(** C8: the recommendations are the advisories of the components whose
    fraction is below 0.5, in the order latency, throughput, quality,
    reliability, followed by exactly one summary line chosen by the
    composite: the premium line from 80 on, the minting line from 50 up to
    80, the below-threshold line otherwise (under 50, or NaN); equal inputs
    give the same list. *)
Theorem generate_recommendations_shape
    (q_score latency throughput quality reliability : float) :
  (exists summary : string,
     _generate_recommendations q_score latency throughput quality reliability =
       (Spec.advisory latency "Consider optimizing inference latency" ++
        Spec.advisory throughput "Throughput could be improved with batching" ++
        Spec.advisory quality "Model accuracy needs improvement" ++
        Spec.advisory reliability "Improve uptime and reduce error rates")
       ++ [summary] /\
     (80 <= q_score ->
      summary = "Excellent performance - eligible for premium rates") /\
     (50 <= q_score -> q_score < 80 ->
      summary = "Good performance - eligible for token minting") /\
     (q_score < 50 ->
      summary = "Below threshold - improvements needed before minting") /\
     (~ 50 <= q_score ->
      summary = "Below threshold - improvements needed before minting")) /\
  (forall fraction text,
     (fraction < 0.5 -> Spec.advisory fraction text = [text]) /\
     (~ fraction < 0.5 -> Spec.advisory fraction text = [])) /\
  (forall q_score' latency' throughput' quality' reliability' : float,
     float_same q_score q_score' -> float_same latency latency' ->
     float_same throughput throughput' ->
     float_same quality quality' -> float_same reliability reliability' ->
     _generate_recommendations q_score latency throughput quality reliability =
     _generate_recommendations q_score' latency' throughput' quality' reliability').
Proof.
  split; [|split].
  - unfold _generate_recommendations. cbv zeta.
    rewrite !advisory_step. rewrite app_nil_l.
    unfold EXCELLENT_THRESHOLD, MIN_SCORE_FOR_MINT, float_ge.
    destruct q_score as [q|[|]|]; float_cbn; repeat q_case;
      eexists; (split; [rewrite <- ?app_assoc; reflexivity|]);
      repeat split; q_done.
  - intros fraction text. unfold Spec.advisory.
    destruct (float_lt fraction 0.5); split; intros H;
      first [reflexivity | discriminate H | exfalso; apply H; reflexivity].
  - intros q_score' latency' throughput' quality' reliability' Hq Hl Ht Hqu Hr.
    unfold _generate_recommendations, float_ge. cbv zeta.
    rewrite (float_lt_compat latency latency' 0.5 0.5 Hl (float_same_refl _)).
    rewrite (float_lt_compat throughput throughput' 0.5 0.5 Ht (float_same_refl _)).
    rewrite (float_lt_compat quality quality' 0.5 0.5 Hqu (float_same_refl _)).
    rewrite (float_lt_compat reliability reliability' 0.5 0.5 Hr (float_same_refl _)).
    rewrite (float_le_compat _ _ q_score q_score'
               (float_same_refl EXCELLENT_THRESHOLD) Hq).
    rewrite (float_le_compat _ _ q_score q_score'
               (float_same_refl MIN_SCORE_FOR_MINT) Hq).
    reflexivity.
Qed.

End Recommendations.

(** ** Inputs on which the stated properties fail *)

Section Counterexamples.

Import Py MarketTools Fixtures.

(** C4, as stated, fails: a latency of 0 is at most a latency of 25, yet it
    scores 0.0 while 25 scores 1.0, so the score rises with the latency
    there and the score is not non-increasing over all latencies. *)
Lemma latency_score_rises_from_zero :
  let m1 := snapshot 0 0 0 0 0 0 in
  let m2 := snapshot 25 0 0 0 0 0 in
  (avg_latency_ms m1 <= avg_latency_ms m2 /\
   _calculate_latency_score m1 = 0.0 /\
   _calculate_latency_score m2 = 1.0 /\
   ~ _calculate_latency_score m2 <= _calculate_latency_score m1) /\
  ~ (forall a b : PerformanceMetrics,
       avg_latency_ms a <= avg_latency_ms b ->
       _calculate_latency_score b <= _calculate_latency_score a).
Proof.
  cbv zeta.
  assert (Hle : avg_latency_ms (snapshot 0 0 0 0 0 0) <=
                avg_latency_ms (snapshot 25 0 0 0 0 0)) by reflexivity.
  assert (Hn : ~ _calculate_latency_score (snapshot 25 0 0 0 0 0) <=
                 _calculate_latency_score (snapshot 0 0 0 0 0 0))
    by (vm_compute; discriminate).
  split.
  - split; [exact Hle|]. split; [reflexivity|]. split; [reflexivity | exact Hn].
  - intros Hall. apply Hn. apply Hall. exact Hle.
Qed.

(** C6, as stated, fails: a snapshot whose accuracy is NaN (with the
    out-of-range benchmark 150) is not clamped; its quality fraction is NaN,
    which is neither equal to the clamp formula nor within 0 and 1. *)
Lemma quality_score_nan_not_clamped :
  let m := snapshot 0 0 NaN 150 0 0 in
  (_calculate_quality_score m = NaN /\
   ~ _calculate_quality_score m ==
       Spec.quality_fraction (accuracy_score m) (benchmark_score m) /\
   ~ 0 <= _calculate_quality_score m /\
   ~ _calculate_quality_score m <= 1) /\
  ~ (forall m : PerformanceMetrics,
       _calculate_quality_score m ==
         Spec.quality_fraction (accuracy_score m) (benchmark_score m) /\
       0 <= _calculate_quality_score m <= 1).
Proof.
  cbv zeta.
  assert (Hnan : _calculate_quality_score (snapshot 0 0 NaN 150 0 0) = NaN)
    by reflexivity.
  split.
  - rewrite Hnan. repeat split; discriminate.
  - intros Hall. destruct (Hall (snapshot 0 0 NaN 150 0 0)) as [_ [H _]].
    rewrite Hnan in H. discriminate H.
Qed.

(** C7, as stated, fails: with a cached snapshot whose accuracy is NaN the
    composite of its identifier is NaN; for the identifiers ["a"] (not
    cached, 12.5), ["b"] (NaN) and ["c"] (91.5) [compare_models] returns them
    in that order, 12.5 before 91.5, which is not descending, and no
    rearrangement of these three results is in descending order. *)
Lemma compare_models_nan_not_sorted :
  let self :=
    {| _metrics_cache :=
         <["b" := snapshot 50 1000 NaN 85 99.9 0.001]>
           (<["c" := sample_performance_metrics]> ∅) |} in
  let results := compare_models self ["a"; "b"; "c"] in
  let score_of := fun model_id => calculate_q_score self model_id None LLM in
  (results = [score_of "a"; score_of "b"; score_of "c"] /\
   q_score (score_of "a") == 12.5 /\
   q_score (score_of "b") = NaN /\
   q_score (score_of "c") == 91.5 /\
   ~ StronglySorted (fun a b => q_score b <= q_score a) results /\
   forall rearranged : list QScoreResult,
     Permutation rearranged results ->
     ~ StronglySorted (fun a b => q_score b <= q_score a) rearranged) /\
  ~ (forall (self : QScoreAnalyzerTool) (model_ids : list string),
       StronglySorted (fun a b => q_score b <= q_score a)
         (compare_models self model_ids)).
Proof.
  cbv zeta.
  set (self := {| _metrics_cache :=
                    <["b" := snapshot 50 1000 NaN 85 99.9 0.001]>
                      (<["c" := sample_performance_metrics]> ∅) |}).
  assert (Hall : forall rearranged : list QScoreResult,
             Permutation rearranged (compare_models self ["a"; "b"; "c"]) ->
             ~ StronglySorted (fun a b => q_score b <= q_score a) rearranged).
  { intros rearranged Hperm.
    apply (nan_key_not_sorted q_score rearranged
             (calculate_q_score self "b" None LLM)).
    - apply (Permutation_in _ (Permutation_sym Hperm)).
      vm_compute. right. left. reflexivity.
    - reflexivity.
    - rewrite (Permutation_length Hperm). vm_compute. lia. }
  split.
  - split; [vm_compute; reflexivity|].
    split; [vm_compute; reflexivity|].
    split; [vm_compute; reflexivity|].
    split; [vm_compute; reflexivity|].
    split; [apply Hall; apply Permutation_refl | exact Hall].
  - intros Hsorted. apply (Hall _ (Permutation_refl _)). apply Hsorted.
Qed.

End Counterexamples.

(** ** The default snapshot *)

Section DefaultSnapshot.

Import Py MarketTools Fixtures.

(** C10: scoring an identifier that has no cached snapshot, without supplied
    metrics, uses the all-zero default snapshot; its latency, throughput and
    quality fractions are 0, its reliability fraction is 0.5 (no uptime
    credit, full credit 1.0 * 0.5 for an error rate of 0), the composite is
    12.5 and the result is not mint eligible. *)
Theorem default_snapshot_score
    (self : QScoreAnalyzerTool) (model_id : string) (category : ModelCategory) :
  _metrics_cache self !! model_id = None ->
  let r := calculate_q_score self model_id None category in
  metrics r = PerformanceMetrics_default /\
  _calculate_latency_score (metrics r) == 0 /\
  _calculate_throughput_score (metrics r) == 0 /\
  _calculate_quality_score (metrics r) == 0 /\
  _calculate_reliability_score (metrics r) == 0.5 /\
  _calculate_reliability_score (metrics r) == 0.0 * 0.5 + 1.0 * 0.5 /\
  q_score r == 12.5 /\
  mint_eligible r = false.
Proof.
  intros Hmiss. cbv zeta.
  assert (Hm : metrics (calculate_q_score self model_id None category)
               = PerformanceMetrics_default).
  { unfold calculate_q_score, _fetch_metrics. rewrite Hmiss. reflexivity. }
  split; [exact Hm|]. rewrite Hm.
  unfold calculate_q_score, _fetch_metrics. rewrite Hmiss.
  repeat split.
Qed.

(** A recorded error rate of at most 0 earns the full error subscore
    whatever the uptime: the reliability fraction is then at least 0.5. *)
Lemma reliability_error_free (m : PerformanceMetrics) :
  error_rate m <= 0 -> 0.5 <= _calculate_reliability_score m.
Proof.
  unfold _calculate_reliability_score. cbv zeta.
  destruct (uptime_percentage m) as [u|[|]|], (error_rate m) as [e|[|]|];
    float_solve.
Qed.

End DefaultSnapshot.

(** ** The pricing engine *)

Section PricingProperties.

Import Py Pricing.

Local Open Scope Z_scope.

Lemma ONE_TOKEN_value : ONE_TOKEN = 100000000.
Proof. reflexivity. Qed.

Lemma swapFee_eq (amountIn : Z) : swapFee amountIn = amountIn * 3 / 1000.
Proof. reflexivity. Qed.

(** C2: the buy quote is fee = baseAmountIn * 3 // 1000,
    net = baseAmountIn - fee, tokenAmountOut = net * 10^8 // price, as the
    contract test computes it; the fee division rounds down and, for a
    positive price, so does the output division, and the quote function
    returns that output; for 100,000,000 at price 50,000,000 the fee is
    300,000, the net 99,700,000 and the output 199,400,000; for 10,000,000
    the fee is 30,000. *)
Theorem buy_quote_floor_formula (baseAmountIn price : Z) :
  price <> 0 ->
  let fee := baseAmountIn * 3 / 1000 in
  let net := baseAmountIn - fee in
  let tokenAmountOut := net * 10 ^ 8 / price in
  TestContract.buy_compute_formula ONE_TOKEN baseAmountIn price
    = Some (fee, net, tokenAmountOut) /\
  1000 * fee <= baseAmountIn * 3 < 1000 * (fee + 1) /\
  (0 < price ->
   price * tokenAmountOut <= net * 10 ^ 8 < price * (tokenAmountOut + 1) /\
   swapFee baseAmountIn = fee /\
   quoteBuy baseAmountIn price = QuoteOk tokenAmountOut) /\
  (TestContract.buy_compute_formula ONE_TOKEN 100000000 50000000
     = Some (300000, 99700000, 199400000) /\
   quoteBuy 100000000 50000000 = QuoteOk 199400000 /\
   TestContract.fee_of 10000000 = Some 30000 /\
   swapFee 10000000 = 30000).
Proof.
  intros Hprice. cbv zeta.
  assert (Hnz : (price =? 0) = false) by (apply Z.eqb_neq; exact Hprice).
  split; [|split; [|split; [|repeat split]]].
  - unfold TestContract.buy_compute_formula, floordiv.
    change (1000 =? 0) with false. cbv iota. rewrite Hnz. reflexivity.
  - pose proof (Z.mul_div_le (baseAmountIn * 3) 1000 ltac:(lia)).
    pose proof (Z.mul_succ_div_gt (baseAmountIn * 3) 1000 ltac:(lia)).
    lia.
  - intros Hpos.
    assert (Hgt : (price <=? 0) = false) by (apply Z.leb_gt; exact Hpos).
    split; [|split].
    + pose proof (Z.mul_div_le ((baseAmountIn - baseAmountIn * 3 / 1000) * 10 ^ 8)
                    price Hpos).
      pose proof (Z.mul_succ_div_gt
                    ((baseAmountIn - baseAmountIn * 3 / 1000) * 10 ^ 8) price Hpos).
      lia.
    + reflexivity.
    + unfold quoteBuy. rewrite Hgt. reflexivity.
Qed.

(** C9: a quote request with a zero or negative price fails with the
    explicit error [InvalidPrice], for buying and for selling; no numeric
    quote is returned. *)
Theorem quote_rejects_nonpositive_price (amountIn price : Z) :
  price <= 0 ->
  quoteBuy amountIn price = QuoteFail InvalidPrice /\
  quoteSell amountIn price = QuoteFail InvalidPrice /\
  (forall amountOut : Z, quoteBuy amountIn price <> QuoteOk amountOut) /\
  (forall amountOut : Z, quoteSell amountIn price <> QuoteOk amountOut).
Proof.
  intros Hprice.
  assert (Hle : (price <=? 0) = true) by (apply Z.leb_le; exact Hprice).
  unfold quoteBuy, quoteSell. rewrite Hle.
  repeat split; intros; discriminate.
Qed.

(** The arithmetic of the contract test, the only pricing arithmetic among
    the sources, raises on a zero price and yields a negative amount on a
    negative one. *)
Example buy_compute_formula_invalid_price :
  TestContract.buy_compute_formula ONE_TOKEN 100000000 0 = None /\
  TestContract.buy_compute_formula ONE_TOKEN 100000000 (-50000000)
    = Some (300000, 99700000, -199400000).
Proof. split; reflexivity. Qed.

Example contract_tests_pass :
  TestContract.test_fee_is_0_3_percent = Some true /\
  TestContract.test_buy_compute_formula ONE_TOKEN = Some true.
Proof. split; reflexivity. Qed.

End PricingProperties.

(** ** The swap arithmetic of the contract test *)

Section SwapArithmetic.

Import Py Pricing.

Local Open Scope Z_scope.

Lemma buy_compute_formula_eq (gas_amount price : Z) :
  price <> 0 ->
  TestContract.buy_compute_formula ONE_TOKEN gas_amount price =
  Some (gas_amount * 3 / 1000,
        gas_amount - gas_amount * 3 / 1000,
        (gas_amount - gas_amount * 3 / 1000) * ONE_TOKEN / price).
Proof.
  intros Hprice. unfold TestContract.buy_compute_formula, floordiv.
  change (1000 =? 0) with false. cbv iota.
  destruct (Z.eqb_spec price 0) as [H0|_]; [contradiction | reflexivity].
Qed.

Lemma fee_floor (gas_amount : Z) :
  1000 * (gas_amount * 3 / 1000) <= gas_amount * 3
  < 1000 * (gas_amount * 3 / 1000) + 1000.
Proof.
  pose proof (Z.mul_div_le (gas_amount * 3) 1000 ltac:(lia)).
  pose proof (Z.mul_succ_div_gt (gas_amount * 3) 1000 ltac:(lia)).
  lia.
Qed.

(** For a non-negative amount and a positive price nothing is created or
  lost: fee and net add up to the amount, the fee is non-negative and at
  most 0.3% of the amount, the net stays between 0 and the amount, and the
  tokens issued are non-negative and worth at most the net amount. *)
Theorem buy_compute_formula_conserves (gas_amount price : Z) :
  0 <= gas_amount -> 0 < price ->
  exists fee net compute : Z,
    TestContract.buy_compute_formula ONE_TOKEN gas_amount price
      = Some (fee, net, compute) /\
    fee + net = gas_amount /\
    0 <= fee /\ 1000 * fee <= 3 * gas_amount /\
    0 <= net <= gas_amount /\
    0 <= compute /\ compute * price <= net * ONE_TOKEN.
Proof.
  intros Hamount Hprice.
  eexists. eexists. eexists.
  split; [apply buy_compute_formula_eq; lia|].
  pose proof (fee_floor gas_amount) as Hfee.
  assert (Hnet : 0 <= gas_amount - gas_amount * 3 / 1000) by lia.
  assert (Hone : 0 < ONE_TOKEN) by reflexivity.
  split; [lia|]. split; [lia|]. split; [lia|]. split; [lia|].
  split.
  - apply Z.div_pos; [|exact Hprice]. apply Z.mul_nonneg_nonneg; lia.
  - rewrite Z.mul_comm. apply Z.mul_div_le. exact Hprice.
Qed.

(** Amounts up to 333 smallest units pay no fee at all, and from 334 on the
  fee is at least 1. *)
Theorem swap_fee_dust_is_free (gas_amount : Z) :
  0 <= gas_amount ->
  (TestContract.fee_of gas_amount = Some 0 <-> gas_amount <= 333).
Proof.
  intros Hamount. unfold TestContract.fee_of, floordiv.
  change (1000 =? 0) with false. cbv iota.
  pose proof (fee_floor gas_amount) as Hfee.
  split.
  - intros Heq. injection Heq as Heq. lia.
  - intros Hle. f_equal. lia.
Qed.

(** More base asset never buys fewer tokens, and a higher price never buys
  more. *)
Theorem buy_compute_formula_monotone (gas1 gas2 price1 price2 : Z) :
  0 <= gas1 -> gas1 <= gas2 -> 0 < price1 -> price1 <= price2 ->
  exists fee_lo net_lo out_lo fee_hi net_hi out_hi : Z,
    TestContract.buy_compute_formula ONE_TOKEN gas1 price2
      = Some (fee_lo, net_lo, out_lo) /\
    TestContract.buy_compute_formula ONE_TOKEN gas2 price1
      = Some (fee_hi, net_hi, out_hi) /\
    fee_lo <= fee_hi /\ net_lo <= net_hi /\ out_lo <= out_hi.
Proof.
  intros Hamount Hgas Hprice Hprices.
  do 6 eexists.
  split; [apply buy_compute_formula_eq; lia|].
  split; [apply buy_compute_formula_eq; lia|].
  pose proof (fee_floor gas1) as Hf1.
  pose proof (fee_floor gas2) as Hf2.
  assert (Hone : 0 < ONE_TOKEN) by reflexivity.
  split; [lia|]. split; [lia|].
  apply Z.le_trans with ((gas1 - gas1 * 3 / 1000) * ONE_TOKEN / price1).
  - apply Z.div_le_compat_l; [|lia]. apply Z.mul_nonneg_nonneg; lia.
  - apply Z.div_le_mono; [exact Hprice|].
    apply Z.mul_le_mono_nonneg_r; lia.
Qed.

End SwapArithmetic.


(** * Further properties of the analyzer *)

(** ** Monotonicity of the component scores *)

Section ComponentMonotonicity.

Import Py MarketTools Fixtures.

Lemma latency_score_antitone_aux (m1 m2 : PerformanceMetrics) :
  0 < avg_latency_ms m1 ->
  avg_latency_ms m1 <= avg_latency_ms m2 ->
  _calculate_latency_score m2 <= _calculate_latency_score m1.
Proof.
  unfold _calculate_latency_score. cbv zeta.
  destruct (avg_latency_ms m1) as [a|[|]|], (avg_latency_ms m2) as [b|[|]|];
    float_solve.
Qed.

Lemma throughput_score_monotone_aux (m1 m2 : PerformanceMetrics) :
  tokens_per_second m1 <= tokens_per_second m2 ->
  _calculate_throughput_score m1 <= _calculate_throughput_score m2.
Proof.
  unfold _calculate_throughput_score. cbv zeta.
  destruct (tokens_per_second m1) as [a|[|]|],
           (tokens_per_second m2) as [b|[|]|];
    float_solve.
Qed.

Lemma reliability_score_monotone_aux (m1 m2 : PerformanceMetrics) :
  uptime_percentage m1 <= uptime_percentage m2 ->
  error_rate m2 <= error_rate m1 ->
  _calculate_reliability_score m1 <= _calculate_reliability_score m2.
Proof.
  unfold _calculate_reliability_score. cbv zeta.
  destruct (uptime_percentage m1) as [u1|[|]|],
           (uptime_percentage m2) as [u2|[|]|],
           (error_rate m1) as [e1|[|]|], (error_rate m2) as [e2|[|]|];
    float_solve.
Qed.

Lemma min_max_monotone (x y : float) :
  x <= y -> min (max x 0.0) 1.0 <= min (max y 0.0) 1.0.
Proof.
  unfold max, min.
  destruct x as [a|[|]|], y as [b|[|]|]; float_cbn; repeat q_case;
    float_cbn; repeat q_case; float_cbn; repeat q_case; q_done.
Qed.

Lemma div_100_monotone (x y : float) : x <= y -> x / 100.0 <= y / 100.0.
Proof.
  destruct x as [a|[|]|], y as [b|[|]|]; float_cbn; try q_done.
  intros H. apply Qle_bool_iff in H. apply Qle_bool_iff.
  unfold Qdiv. apply Qmult_le_compat_r; [exact H | discriminate].
Qed.

Lemma quality_score_monotone_aux (m1 m2 : PerformanceMetrics) :
  accuracy_score m1 <= accuracy_score m2 ->
  benchmark_score m1 <= benchmark_score m2 ->
  _calculate_quality_score m1 <= _calculate_quality_score m2.
Proof.
  intros Ha Hb. unfold _calculate_quality_score. cbv zeta.
  pose proof (min_max_monotone _ _ Ha) as Ha'.
  pose proof (min_max_monotone _ _ (div_100_monotone _ _ Hb)) as Hb'.
  destruct (float_le_not_nan _ _ Ha) as [Ha1 Ha2].
  destruct (float_le_not_nan _ _ (div_100_monotone _ _ Hb)) as [Hb1 Hb2].
  destruct (min_max_num _ Ha1) as (a1 & Ea1 & _).
  destruct (min_max_num _ Ha2) as (a2 & Ea2 & _).
  destruct (min_max_num _ Hb1) as (b1 & Eb1 & _).
  destruct (min_max_num _ Hb2) as (b2 & Eb2 & _).
  rewrite Ea1, Ea2 in Ha'. rewrite Eb1, Eb2 in Hb'.
  rewrite Ea1, Ea2, Eb1, Eb2.
  apply float_le_Num in Ha'. apply float_le_Num in Hb'.
  float_cbn. apply Qle_bool_iff. lra.
Qed.

(** More tokens per second never lower the throughput score; unlike the
  latency score there is no validity guard, so this holds for every pair of
  inputs. *)
Theorem throughput_score_monotone (m1 m2 : PerformanceMetrics) :
  tokens_per_second m1 <= tokens_per_second m2 ->
  _calculate_throughput_score m1 <= _calculate_throughput_score m2.
Proof. apply throughput_score_monotone_aux. Qed.

(** A higher uptime together with a lower error rate never lowers the
  reliability score. *)
Theorem reliability_score_monotone (m1 m2 : PerformanceMetrics) :
  uptime_percentage m1 <= uptime_percentage m2 ->
  error_rate m2 <= error_rate m1 ->
  _calculate_reliability_score m1 <= _calculate_reliability_score m2.
Proof. apply reliability_score_monotone_aux. Qed.

(** The reliability score is 1 exactly for an uptime of at least 99.9 with
  an error rate of at most 0, and 0 exactly when the uptime is not at least
  90 and the error rate is not below 0.10; a NaN uptime or error rate fails
  every threshold test and earns no credit. *)
Theorem reliability_score_extremes (m : PerformanceMetrics) :
  (_calculate_reliability_score m == 1 <->
   99.9 <= uptime_percentage m /\ error_rate m <= 0) /\
  (_calculate_reliability_score m == 0 <->
   ~ 90 <= uptime_percentage m /\ ~ error_rate m < 0.10) /\
  (is_nan (uptime_percentage m) = true -> is_nan (error_rate m) = true ->
   _calculate_reliability_score m == 0).
Proof.
  unfold _calculate_reliability_score. cbv zeta.
  destruct (uptime_percentage m) as [u|[|]|], (error_rate m) as [e|[|]|];
    float_cbn; repeat q_case; float_cbn;
    (split; [split; [intros H; vm_compute in H; try discriminate H; split; q_done
                    | intros [H1 H2]; q_done]|]);
    (split; [split; [intros H; vm_compute in H; try discriminate H;
                     split; intros H'; q_done
                    | intros [H1 H2];
                      first [ reflexivity
                            | exfalso; apply H1; first [reflexivity | lra]
                            | exfalso; apply H2; first [reflexivity | lra] ]]|]);
    intros H1 H2; first [discriminate | reflexivity].
Qed.

(** A higher accuracy together with a higher benchmark never lowers the
  quality score, also outside the expected ranges. *)
Theorem quality_score_monotone (m1 m2 : PerformanceMetrics) :
  accuracy_score m1 <= accuracy_score m2 ->
  benchmark_score m1 <= benchmark_score m2 ->
  _calculate_quality_score m1 <= _calculate_quality_score m2.
Proof. apply quality_score_monotone_aux. Qed.

End ComponentMonotonicity.

(** ** The composite as a function of the snapshot *)

Section CompositeScore.

Import Py MarketTools Fixtures.

(** The composite and the gate of a supplied snapshot whose four fractions
  are numbers. *)
Lemma calculate_q_score_num
    (self : QScoreAnalyzerTool) (model_id : string) (category : ModelCategory)
    (m : PerformanceMetrics) (a b c d : Q) :
  _calculate_latency_score m = Num a ->
  _calculate_throughput_score m = Num b ->
  _calculate_quality_score m = Num c ->
  _calculate_reliability_score m = Num d ->
  let r := calculate_q_score self model_id (Some m) category in
  let q := ((a * 0.25 + b * 0.25 + c * 0.25 + d * 0.25) * 100)%Q in
  q_score r = Num q /\
  mint_eligible r = Qle_bool 50 q /\
  recommendations r = _generate_recommendations (Num q) (Num a) (Num b) (Num c) (Num d) /\
  latency_score r = Num (a * 25) /\ throughput_score r = Num (b * 25) /\
  quality_score r = Num (c * 25) /\ reliability_score r = Num (d * 25).
Proof.
  intros Ea Eb Ec Ed. cbv zeta. unfold calculate_q_score.
  cbn [q_score mint_eligible recommendations latency_score throughput_score
       quality_score reliability_score].
  rewrite Ea, Eb, Ec, Ed, composite_num. repeat split.
Qed.

(** A snapshot that is at least as good in every scored metric (a lower but
  still positive latency, more tokens per second, higher accuracy and
  benchmark, higher uptime, lower error rate) gets at least the same
  composite, and stays mint eligible if the other one is. *)
Theorem q_score_monotone_in_metrics
    (self : QScoreAnalyzerTool) (model_id : string) (category : ModelCategory)
    (worse better : PerformanceMetrics) :
  0 < avg_latency_ms better ->
  avg_latency_ms better <= avg_latency_ms worse ->
  tokens_per_second worse <= tokens_per_second better ->
  accuracy_score worse <= accuracy_score better ->
  benchmark_score worse <= benchmark_score better ->
  uptime_percentage worse <= uptime_percentage better ->
  error_rate better <= error_rate worse ->
  let r_worse := calculate_q_score self model_id (Some worse) category in
  let r_better := calculate_q_score self model_id (Some better) category in
  q_score r_worse <= q_score r_better /\
  (mint_eligible r_worse = true -> mint_eligible r_better = true).
Proof.
  intros Hpos Hlat Htps Hacc Hbench Hup Herr. cbv zeta.
  pose proof (latency_score_antitone_aux better worse Hpos Hlat) as Hl.
  pose proof (throughput_score_monotone_aux worse better Htps) as Ht.
  pose proof (quality_score_monotone_aux worse better Hacc Hbench) as Hq.
  pose proof (reliability_score_monotone_aux worse better Hup Herr) as Hr.
  destruct (float_le_not_nan _ _ Hacc) as [Ha1 Ha2].
  destruct (float_le_not_nan _ _ Hbench) as [Hb1 Hb2].
  destruct (latency_score_num worse) as (a1 & Ea1 & _).
  destruct (latency_score_num better) as (a2 & Ea2 & _).
  destruct (throughput_score_num worse) as (b1 & Eb1 & _).
  destruct (throughput_score_num better) as (b2 & Eb2 & _).
  destruct (quality_score_num worse (conj Ha1 Hb1)) as (c1 & Ec1 & _).
  destruct (quality_score_num better (conj Ha2 Hb2)) as (c2 & Ec2 & _).
  destruct (reliability_score_num worse) as (d1 & Ed1 & _).
  destruct (reliability_score_num better) as (d2 & Ed2 & _).
  destruct (calculate_q_score_num self model_id category worse _ _ _ _
              Ea1 Eb1 Ec1 Ed1) as (-> & -> & _).
  destruct (calculate_q_score_num self model_id category better _ _ _ _
              Ea2 Eb2 Ec2 Ed2) as (-> & -> & _).
  rewrite Ea1, Ea2 in Hl. rewrite Eb1, Eb2 in Ht.
  rewrite Ec1, Ec2 in Hq. rewrite Ed1, Ed2 in Hr.
  apply float_le_Num in Hl, Ht, Hq, Hr.
  float_cbn. repeat q_case; repeat split; q_done.
Qed.

(** A snapshot with a positive latency under 50 ms, at least 1000 tokens per
  second, accuracy at least 1, benchmark at least 100, uptime at least 99.9
  and no errors scores the full 100: every component field is 25, the result
  is mint eligible and its only recommendation is the premium line. *)
Theorem perfect_snapshot_scores_100
    (self : QScoreAnalyzerTool) (model_id : string) (category : ModelCategory)
    (m : PerformanceMetrics) :
  0 < avg_latency_ms m -> avg_latency_ms m < 50 ->
  1000 <= tokens_per_second m ->
  1 <= accuracy_score m -> 100 <= benchmark_score m ->
  99.9 <= uptime_percentage m -> error_rate m <= 0 ->
  let r := calculate_q_score self model_id (Some m) category in
  q_score r == 100 /\
  latency_score r == 25 /\ throughput_score r == 25 /\
  quality_score r == 25 /\ reliability_score r == 25 /\
  mint_eligible r = true /\
  recommendations r = ["Excellent performance - eligible for premium rates"].
Proof.
  intros Hl0 Hl50 Htps Hacc Hbench Hup Herr. cbv zeta.
  assert (Hl : exists a : Q, _calculate_latency_score m = Num a /\ (a == 1)%Q).
  { revert Hl0 Hl50. unfold _calculate_latency_score. cbv zeta.
    destruct (avg_latency_ms m) as [l|[|]|]; float_cbn; repeat q_case;
      intros; try discriminate; eexists; (split; [reflexivity | q_done]). }
  assert (Ht : exists b : Q, _calculate_throughput_score m = Num b /\ (b == 1)%Q).
  { revert Htps. unfold _calculate_throughput_score. cbv zeta.
    destruct (tokens_per_second m) as [t|[|]|]; float_cbn; repeat q_case;
      intros; try discriminate; eexists; (split; [reflexivity | q_done]). }
  assert (Hr : exists d : Q, _calculate_reliability_score m = Num d /\ (d == 1)%Q).
  { revert Hup Herr. unfold _calculate_reliability_score. cbv zeta.
    destruct (uptime_percentage m) as [u|[|]|], (error_rate m) as [e|[|]|];
      float_cbn; repeat q_case;
      intros; try discriminate; eexists; (split; [reflexivity | q_done]). }
  assert (Hq : exists c : Q, _calculate_quality_score m = Num c /\ (c == 1)%Q).
  { assert (Ha1 : exists x : Q, min (max (accuracy_score m) 0.0) 1.0 = Num x
                                /\ (x == 1)%Q).
    { revert Hacc. unfold max, min.
      destruct (accuracy_score m) as [x|[|]|]; float_cbn; repeat q_case;
        float_cbn; repeat q_case;
        intros; try discriminate; eexists; (split; [reflexivity | q_done]). }
    assert (Hb1 : exists y : Q,
               min (max (benchmark_score m / 100.0) 0.0) 1.0 = Num y
               /\ (y == 1)%Q).
    { revert Hbench. unfold max, min.
      destruct (benchmark_score m) as [y|[|]|]; float_cbn;
        try (intros; discriminate).
      - intros Hy. apply Qle_bool_iff in Hy.
        assert (Hy' : (1 <= y / 100.0)%Q).
        { apply Qle_trans with (100 / 100.0)%Q; [vm_compute; discriminate|].
          unfold Qdiv. apply Qmult_le_compat_r; [exact Hy | discriminate]. }
        revert Hy'. generalize (y / 100.0)%Q. intros z Hz.
        repeat q_case; float_cbn; repeat q_case;
          eexists; (split; [reflexivity | q_done]).
      - intros _. eexists. split; reflexivity. }
    destruct Ha1 as (x & Ex & Hx), Hb1 as (y & Ey & Hy).
    unfold _calculate_quality_score. cbv zeta. rewrite Ex, Ey.
    float_cbn. eexists. split; [reflexivity|]. rewrite Hx, Hy. reflexivity. }
  destruct Hl as (a & Ea & Ha), Ht as (b & Eb & Hb),
           Hq as (c & Ec & Hc), Hr as (d & Ed & Hd).
  destruct (calculate_q_score_num self model_id category m _ _ _ _ Ea Eb Ec Ed)
    as (-> & -> & -> & -> & -> & -> & ->).
  unfold _generate_recommendations, EXCELLENT_THRESHOLD, MIN_SCORE_FOR_MINT.
  cbv zeta. float_cbn. repeat q_case; repeat split; q_done.
Qed.

(** The score reads six fields of the snapshot only: two snapshots that
  agree on average latency, tokens per second, accuracy, benchmark, uptime
  and error rate get the same composite, component fields, recommendations
  and eligibility, whatever their percentile latencies, request rate, cost,
  timestamp and sample size, and whatever the category. *)
Theorem score_reads_six_fields
    (self : QScoreAnalyzerTool) (model_id : string)
    (category category' : ModelCategory) (m m' : PerformanceMetrics) :
  avg_latency_ms m = avg_latency_ms m' ->
  tokens_per_second m = tokens_per_second m' ->
  accuracy_score m = accuracy_score m' ->
  benchmark_score m = benchmark_score m' ->
  uptime_percentage m = uptime_percentage m' ->
  error_rate m = error_rate m' ->
  let r := calculate_q_score self model_id (Some m) category in
  let r' := calculate_q_score self model_id (Some m') category' in
  q_score r = q_score r' /\
  latency_score r = latency_score r' /\
  throughput_score r = throughput_score r' /\
  quality_score r = quality_score r' /\
  reliability_score r = reliability_score r' /\
  recommendations r = recommendations r' /\
  mint_eligible r = mint_eligible r'.
Proof.
  intros Hl Ht Ha Hb Hu He. cbv zeta.
  unfold calculate_q_score.
  cbn [q_score latency_score throughput_score quality_score reliability_score
       mint_eligible recommendations].
  unfold _calculate_latency_score, _calculate_throughput_score,
    _calculate_quality_score, _calculate_reliability_score.
  rewrite Hl, Ht, Ha, Hb, Hu, He. repeat split.
Qed.

End CompositeScore.

(** ** The metrics cache *)

Section MetricsCache.

Import Py MarketTools Fixtures.

(** Scoring a cached identifier without metrics is scoring its cached
  snapshot: the result is the one obtained by supplying that snapshot, on
  any analyzer. *)
Theorem cached_snapshot_is_scored
    (self other : QScoreAnalyzerTool) (model_id : string)
    (m : PerformanceMetrics) (category : ModelCategory) :
  _metrics_cache self !! model_id = Some m ->
  calculate_q_score self model_id None category =
  calculate_q_score other model_id (Some m) category.
Proof.
  intros Hhit. unfold calculate_q_score, _fetch_metrics.
  rewrite Hhit. reflexivity.
Qed.

(** Writing a snapshot into the cache under one identifier makes that
  identifier score as the written snapshot (the last write wins), leaves the
  score of every other identifier unchanged, and removing the entry brings
  the identifier back to the score of the default snapshot. *)
Theorem cache_write_is_local
    (self : QScoreAnalyzerTool) (key model_id : string)
    (m : PerformanceMetrics) (category : ModelCategory) :
  let written := {| _metrics_cache := <[key := m]> (_metrics_cache self) |} in
  let removed := {| _metrics_cache := delete key (_metrics_cache written) |} in
  calculate_q_score written key None category =
    calculate_q_score self key (Some m) category /\
  (key <> model_id ->
   calculate_q_score written model_id None category =
     calculate_q_score self model_id None category) /\
  calculate_q_score removed key None category =
    calculate_q_score self key (Some PerformanceMetrics_default) category.
Proof.
  cbv zeta. unfold calculate_q_score, _fetch_metrics. cbn [_metrics_cache].
  split; [|split].
  - rewrite lookup_insert_eq. reflexivity.
  - intros Hne. rewrite lookup_insert_ne by exact Hne. reflexivity.
  - rewrite lookup_delete_eq. reflexivity.
Qed.

End MetricsCache.

(** ** Recommendations and eligibility of a result *)

Section ResultConsistency.

Import Py MarketTools Fixtures.

Variable self : QScoreAnalyzerTool.

(** The summary line chosen for a composite. *)
Lemma generate_recommendations_app
    (q_score latency throughput quality reliability : float) :
  _generate_recommendations q_score latency throughput quality reliability =
  (Spec.advisory latency "Consider optimizing inference latency" ++
   Spec.advisory throughput "Throughput could be improved with batching" ++
   Spec.advisory quality "Model accuracy needs improvement" ++
   Spec.advisory reliability "Improve uptime and reduce error rates") ++
  [if float_ge q_score 80
   then "Excellent performance - eligible for premium rates"
   else if float_ge q_score 50
        then "Good performance - eligible for token minting"
        else "Below threshold - improvements needed before minting"].
Proof.
  unfold _generate_recommendations. cbv zeta.
  rewrite !advisory_step. rewrite app_nil_l.
  unfold EXCELLENT_THRESHOLD, MIN_SCORE_FOR_MINT.
  destruct (float_ge q_score 80); [|destruct (float_ge q_score 50)];
    rewrite <- ?app_assoc; reflexivity.
Qed.

Lemma advisory_length (fraction : float) (text : string) :
  length (Spec.advisory fraction text) =
  if float_lt fraction 0.5 then 1%nat else 0%nat.
Proof. unfold Spec.advisory. destruct (float_lt fraction 0.5); reflexivity. Qed.

(** What a result records, in terms of the fractions of its snapshot. *)
Lemma calculate_q_score_result
    (model_id : string) (supplied : option PerformanceMetrics)
    (category : ModelCategory) :
  let r := calculate_q_score self model_id supplied category in
  let m := metrics r in
  recommendations r =
    _generate_recommendations (q_score r)
      (_calculate_latency_score m) (_calculate_throughput_score m)
      (_calculate_quality_score m) (_calculate_reliability_score m) /\
  mint_eligible r = float_ge (q_score r) 50 /\
  q_score r =
    (_calculate_latency_score m * LATENCY_WEIGHT +
     _calculate_throughput_score m * THROUGHPUT_WEIGHT +
     _calculate_quality_score m * QUALITY_WEIGHT +
     _calculate_reliability_score m * RELIABILITY_WEIGHT) * 100.
Proof.
  cbv zeta. unfold calculate_q_score.
  cbn [recommendations mint_eligible q_score metrics].
  repeat split.
Qed.

(** The last recommendation of a result always agrees with its eligibility
  flag: the list is never empty, its last line is the below-threshold line
  exactly when the result is not mint eligible, and the minting or premium
  line exactly when it is. *)
Theorem summary_line_matches_eligibility
    (model_id : string) (supplied : option PerformanceMetrics)
    (category : ModelCategory) :
  let r := calculate_q_score self model_id supplied category in
  let summary := List.last (recommendations r) "" in
  recommendations r <> [] /\
  (mint_eligible r = false <->
   summary = "Below threshold - improvements needed before minting") /\
  (mint_eligible r = true <->
   summary = "Good performance - eligible for token minting" \/
   summary = "Excellent performance - eligible for premium rates").
Proof.
  cbv zeta.
  destruct (calculate_q_score_result model_id supplied category)
    as (Hrecs & Hflag & _).
  cbv zeta in Hrecs, Hflag. rewrite Hrecs, Hflag.
  rewrite generate_recommendations_app.
  split; [intros Hnil; apply app_eq_nil in Hnil; destruct Hnil; discriminate|].
  rewrite List.last_last.
  destruct (q_score (calculate_q_score self model_id supplied category))
    as [q|[|]|]; unfold float_ge; float_cbn; repeat q_case;
    try (exfalso; lra);
    split; split; intros H; try reflexivity; try discriminate H;
      try (destruct H as [H|H]; discriminate H);
      auto.
Qed.

(** The number of recommendations is one more than the number of components
  below 0.5, so between 1 and 5; a result with five recommendations is never
  mint eligible, a composite of at least 80 comes with at most one advisory,
  and a result with a single recommendation is mint eligible unless its
  composite is NaN (a NaN accuracy or benchmark raises no advisory and makes
  the composite NaN, which fails the gate). *)
Theorem advisory_count_bounds_eligibility
    (model_id : string) (supplied : option PerformanceMetrics)
    (category : ModelCategory) :
  let r := calculate_q_score self model_id supplied category in
  (1 <= length (recommendations r) <= 5)%nat /\
  (length (recommendations r) = 1%nat ->
   mint_eligible r = true \/ q_score r = NaN) /\
  (length (recommendations r) = 1%nat -> Spec.numeric_quality (metrics r) ->
   mint_eligible r = true) /\
  (length (recommendations r) = 5%nat -> mint_eligible r = false) /\
  (80 <= q_score r -> (length (recommendations r) <= 2)%nat).
Proof.
  cbv zeta.
  destruct (calculate_q_score_result model_id supplied category)
    as (Hrecs & Hflag & Hq).
  cbv zeta in Hrecs, Hflag, Hq. rewrite Hrecs, Hflag.
  rewrite generate_recommendations_app.
  set (m := metrics (calculate_q_score self model_id supplied category)) in *.
  rewrite Hq. clear Hq Hrecs Hflag.
  destruct (latency_score_num m) as (a & -> & Ha).
  destruct (throughput_score_num m) as (b & -> & Hb).
  destruct (reliability_score_num m) as (d & -> & Hd).
  rewrite !length_app, !advisory_length. cbn [length].
  destruct (quality_score_cases m) as [[Hnum (c & -> & Hc)]|[Hnan ->]].
  - rewrite composite_num. unfold float_ge. float_cbn.
    repeat q_case; cbn [Nat.add];
      (split; [lia|]);
      (split; [intros Hlen; first [discriminate Hlen | left; q_done]|]);
      (split; [intros Hlen _; first [discriminate Hlen | q_done]|]);
      (split; [intros Hlen; first [discriminate Hlen | q_done]|]);
      intros H80; first [lia | discriminate H80 | exfalso; lra].
  - rewrite composite_nan. unfold float_ge. float_cbn.
    repeat q_case; cbn [Nat.add];
      (split; [lia|]);
      (split; [intros Hlen; right; reflexivity|]);
      (split; [intros Hlen [H1 H2]; destruct Hnan; congruence|]);
      (split; [intros Hlen; first [discriminate Hlen | reflexivity]|]);
      intros H80; discriminate H80.
Qed.

End ResultConsistency.

(** ** More on the stable descending sort *)

Section SortedReverseFacts.

Import Py.

Context {A : Type} (key : A -> float).

Local Abbreviation key_ge := (Spec.key_ge key).
Local Abbreviation no_nan := (Forall (fun a : A => is_nan (key a) = false)).

(** Two elements carry the same key. *)
Local Abbreviation same_key := (fun a b : A => float_same (key a) (key b)).

(** The second element does not compare greater than the first: what the
  sort tests between neighbours. *)
Local Abbreviation not_above := (fun a b : A => float_gt (key b) (key a) = false).

Lemma float_ge_below (x y v : float) :
  y <= x -> float_ge x v = false -> float_ge y v = false.
Proof.
  unfold float_ge.
  destruct x as [a|[|]|], y as [b|[|]|], v as [c|[|]|]; float_solve.
Qed.

Lemma float_gt_le_gt (x y z : float) :
  is_nan y = false -> is_nan z = false ->
  float_gt z x = true -> float_gt z y = false -> float_gt y x = true.
Proof.
  unfold float_gt.
  destruct x as [a|[|]|], y as [b|[|]|], z as [c|[|]|]; float_solve.
Qed.

Lemma float_not_gt_same (x y : float) :
  is_nan x = false -> is_nan y = false ->
  float_gt x y = false -> float_gt y x = false -> float_same x y.
Proof.
  unfold float_gt.
  destruct x as [a|[|]|], y as [b|[|]|]; float_solve.
Qed.

Lemma float_same_eq (x y : float) :
  is_nan x = false -> float_same x y -> x == y.
Proof. destruct x as [a|[|]|], y as [b|[|]|]; float_solve. Qed.

Lemma insert_desc_cons_gt (x y : A) (l : list A) :
  float_gt (key y) (key x) = true ->
  insert_desc key x (y :: l) = y :: insert_desc key x l.
Proof. intros H. cbn [insert_desc]. rewrite H. reflexivity. Qed.

Lemma insert_desc_cons_le (x y : A) (l : list A) :
  float_gt (key y) (key x) = false ->
  insert_desc key x (y :: l) = x :: y :: l.
Proof. intros H. cbn [insert_desc]. rewrite H. reflexivity. Qed.




(** Sorting a list whose neighbours are already in order changes
  nothing. *)
Lemma sorted_reverse_fixed (l : list A) :
  Sorted not_above l -> sorted_reverse key l = l.
Proof.
  induction 1 as [|x l Hs IH Hhd]; [reflexivity|].
  cbn [sorted_reverse fold_right]. fold (sorted_reverse key l).
  rewrite IH. destruct Hhd as [|y l' Hxy]; [reflexivity|].
  apply insert_desc_cons_le. exact Hxy.
Qed.

(** A list of elements that all compare equal to one value has its
  neighbours in order. *)
Lemma equal_keys_locally_sorted (v : float) (l : list A) :
  Forall (fun a => key a == v) l -> Sorted not_above l.
Proof.
  induction 1 as [|x l Hx Hl IH]; constructor; [exact IH|].
  destruct Hl as [|y l' Hy _]; constructor.
  apply float_eq_not_gt with v; assumption.
Qed.

(** In a list in decreasing key order the elements whose key reaches a
  threshold come first. *)
Lemma sorted_threshold_split (v : float) (l : list A) :
  StronglySorted key_ge l ->
  l = List.filter (fun a => float_ge (key a) v) l ++
      List.filter (fun a => negb (float_ge (key a) v)) l.
Proof.
  induction 1 as [|x l Hs IH Hall]; [reflexivity|].
  cbn [List.filter].
  destruct (float_ge (key x) v) eqn:Hx; cbn [negb].
  - cbn [app]. rewrite <- IH. reflexivity.
  - assert (Hnone : List.filter (fun a => float_ge (key a) v) l = []).
    { clear IH Hs. induction Hall as [|y l Hy _ IHl]; [reflexivity|].
      cbn [List.filter].
      rewrite (float_ge_below (key x) (key y) v Hy Hx). exact IHl. }
    rewrite Hnone in *. cbn [app] in *. rewrite <- IH. reflexivity.
Qed.

Lemma same_key_refl (l : list A) : Forall2 same_key l l.
Proof. induction l; constructor; [apply float_same_refl | assumption]. Qed.

Lemma same_key_trans (l1 l2 l3 : list A) :
  Forall2 same_key l1 l2 -> Forall2 same_key l2 l3 -> Forall2 same_key l1 l3.
Proof.
  intros H12. revert l3. induction H12 as [|a b l1 l2 Hab H12 IH];
    intros l3 H23; inversion H23; subst; constructor.
  - eapply float_same_trans; eassumption.
  - apply IH. assumption.
Qed.

Lemma insert_desc_same_key (x : A) (l l' : list A) :
  Forall2 same_key l l' ->
  Forall2 same_key (insert_desc key x l) (insert_desc key x l').
Proof.
  induction 1 as [|y y' l l' Hy Hl IH]; cbn [insert_desc].
  - constructor; [apply float_same_refl | constructor].
  - rewrite (float_lt_compat (key x) (key x) (key y) (key y')
               (float_same_refl _) Hy
             : float_gt (key y) (key x) = float_gt (key y') (key x)).
    destruct (float_gt (key y') (key x)).
    + constructor; assumption.
    + constructor; [apply float_same_refl|]. constructor; assumption.
Qed.

(** Two insertions into a list without NaN keys commute up to the order of
  elements of equal key. *)
Lemma insert_desc_swap (x y : A) (l : list A) :
  is_nan (key x) = false -> is_nan (key y) = false -> no_nan l ->
  Forall2 same_key (insert_desc key y (insert_desc key x l))
                   (insert_desc key x (insert_desc key y l)).
Proof.
  intros Hx Hy Hl.
  assert (Hbase : forall t : list A,
             insert_desc key y t = y :: t -> insert_desc key x t = x :: t ->
             Forall2 same_key (insert_desc key y (x :: t))
                              (insert_desc key x (y :: t))).
  { intros t Hyt Hxt.
    destruct (float_gt (key x) (key y)) eqn:Hxy.
    - rewrite (insert_desc_cons_gt y x t Hxy), Hyt.
      rewrite (insert_desc_cons_le x y t (float_gt_asym _ _ Hxy)).
      apply same_key_refl.
    - rewrite (insert_desc_cons_le y x t Hxy).
      destruct (float_gt (key y) (key x)) eqn:Hyx.
      + rewrite (insert_desc_cons_gt x y t Hyx), Hxt. apply same_key_refl.
      + rewrite (insert_desc_cons_le x y t Hyx).
        assert (Hsame : float_same (key x) (key y))
          by (apply float_not_gt_same; assumption).
        constructor; [apply float_same_sym; exact Hsame|].
        constructor; [exact Hsame | apply same_key_refl]. }
  induction Hl as [|z l Hz Hl IH].
  - apply Hbase; reflexivity.
  - destruct (float_gt (key z) (key x)) eqn:Hzx;
      destruct (float_gt (key z) (key y)) eqn:Hzy.
    + rewrite (insert_desc_cons_gt x z l Hzx), (insert_desc_cons_gt y z l Hzy).
      rewrite (insert_desc_cons_gt y z _ Hzy), (insert_desc_cons_gt x z _ Hzx).
      constructor; [apply float_same_refl | exact IH].
    + rewrite (insert_desc_cons_gt x z l Hzx), (insert_desc_cons_le y z l Hzy).
      rewrite (insert_desc_cons_le y z _ Hzy).
      rewrite (insert_desc_cons_gt x y _
                 (float_gt_le_gt (key x) (key y) (key z) Hy Hz Hzx Hzy)).
      rewrite (insert_desc_cons_gt x z l Hzx).
      apply same_key_refl.
    + rewrite (insert_desc_cons_le x z l Hzx), (insert_desc_cons_gt y z l Hzy).
      rewrite (insert_desc_cons_le x z _ Hzx).
      rewrite (insert_desc_cons_gt y x _
                 (float_gt_le_gt (key y) (key x) (key z) Hx Hz Hzy Hzx)).
      rewrite (insert_desc_cons_gt y z l Hzy).
      apply same_key_refl.
    + rewrite (insert_desc_cons_le x z l Hzx), (insert_desc_cons_le y z l Hzy).
      apply Hbase; apply insert_desc_cons_le; assumption.
Qed.

(** The keys of the sorted list, position by position, do not depend on the
  order of the input, as long as no key is NaN. *)
Lemma sorted_reverse_perm_same_key (l l' : list A) :
  Permutation l l' -> no_nan l ->
  Forall2 same_key (sorted_reverse key l) (sorted_reverse key l').
Proof.
  induction 1 as [|x l l' Hp IH|x y l|l1 l2 l3 H12 IH12 H23 IH23];
    intros Hnan; cbn [sorted_reverse fold_right].
  - constructor.
  - inversion Hnan; subst. apply insert_desc_same_key. apply IH. assumption.
  - inversion Hnan as [|? ? Hy Hrest]; subst.
    inversion Hrest as [|? ? Hx Hl]; subst.
    apply insert_desc_swap; [exact Hx | exact Hy |].
    apply (sorted_reverse_no_nan key). exact Hl.
  - eapply same_key_trans; [apply IH12; exact Hnan|].
    apply IH23. eapply Permutation_Forall; eassumption.
Qed.

End SortedReverseFacts.

(** ** Rankings *)

Section Rankings.

Import Py MarketTools Fixtures.

Variable self : QScoreAnalyzerTool.

(** The score of one identifier with the default arguments. *)
Local Abbreviation score_of :=
  (fun model_id : string => calculate_q_score self model_id None LLM).

(** Every identifier has a snapshot whose accuracy and benchmark are not
  NaN, so that no composite is NaN. *)
Local Abbreviation numeric_snapshots :=
  (Forall (fun model_id => Spec.numeric_quality (_fetch_metrics self model_id))).

Lemma compare_models_elements (model_ids : list string) (r : QScoreResult) :
  In r (compare_models self model_ids) ->
  exists model_id, In model_id model_ids /\ r = score_of model_id.
Proof.
  rewrite compare_models_unfold. intros Hin.
  apply (Permutation_in _ (sorted_reverse_perm q_score _)) in Hin.
  apply in_map_iff in Hin. destruct Hin as (model_id & Heq & Hin).
  exists model_id. split; [exact Hin | symmetry; exact Heq].
Qed.

(** With no identifier in the cache every identifier scores the default
  12.5, so the ranking is all ties and [compare_models] returns the
  identifiers in the order given, none of them mint eligible; in particular
  an empty list gives an empty ranking. *)
Theorem compare_models_uncached_keeps_order (model_ids : list string) :
  Forall (fun model_id => _metrics_cache self !! model_id = None) model_ids ->
  let results := compare_models self model_ids in
  map model_id results = model_ids /\
  Forall (fun r => q_score r == 12.5 /\ mint_eligible r = false) results.
Proof.
  intros Hmiss. cbv zeta. rewrite compare_models_unfold.
  assert (Hscored : Forall (fun r => q_score r == 12.5 /\ mint_eligible r = false)
                      (map score_of model_ids)).
  { induction Hmiss as [|model_id ids Hid _ IH]; constructor; [|exact IH].
    unfold calculate_q_score, _fetch_metrics. rewrite Hid.
    split; reflexivity. }
  assert (Hsorted : Sorted (fun a b => float_gt (q_score b) (q_score a) = false)
                      (map score_of model_ids)).
  { apply (equal_keys_locally_sorted q_score 12.5).
    refine (List.Forall_impl _ _ Hscored). intros r [Hr _]. exact Hr. }
  rewrite (sorted_reverse_fixed q_score _ Hsorted).
  split; [apply model_id_calculate_q_score | exact Hscored].
Qed.

(** When no snapshot has a NaN accuracy or benchmark, the mint-eligible
  results of a ranking come first: the list splits into a run of eligible
  results followed by a run of ineligible ones. *)
Theorem compare_models_eligible_first (model_ids : list string) :
  numeric_snapshots model_ids ->
  exists eligible ineligible : list QScoreResult,
    compare_models self model_ids = eligible ++ ineligible /\
    Forall (fun r => mint_eligible r = true) eligible /\
    Forall (fun r => mint_eligible r = false) ineligible.
Proof.
  intros Hnum.
  assert (Hflag : forall r, In r (compare_models self model_ids) ->
                            mint_eligible r = float_ge (q_score r) 50).
  { intros r Hin. apply compare_models_elements in Hin.
    destruct Hin as (model_id & _ & ->). reflexivity. }
  assert (Hsorted : StronglySorted (Spec.key_ge q_score)
                      (compare_models self model_ids)).
  { rewrite compare_models_unfold. apply (sorted_reverse_sorted q_score).
    apply scored_no_nan. exact Hnum. }
  pose proof (sorted_threshold_split q_score 50 _ Hsorted) as Hsplit.
  eexists. eexists. split; [exact Hsplit|].
  split; apply List.Forall_forall; intros r Hin;
    apply List.filter_In in Hin; destruct Hin as [Hin Hp];
    rewrite (Hflag r Hin).
  - exact Hp.
  - apply negb_true_iff. exact Hp.
Qed.


(** When no snapshot has a NaN accuracy or benchmark, the composites of a
  ranking, position by position, do not depend on the order in which the
  identifiers are given. *)
Theorem compare_models_scores_order_independent (model_ids model_ids' : list string) :
  numeric_snapshots model_ids ->
  Permutation model_ids model_ids' ->
  Forall2 (fun r r' => q_score r == q_score r')
    (compare_models self model_ids) (compare_models self model_ids').
Proof.
  intros Hnum Hperm. rewrite !compare_models_unfold.
  assert (Hnan : Forall (fun r => is_nan (q_score r) = false)
                   (map score_of model_ids))
    by (apply scored_no_nan; exact Hnum).
  assert (Hsame : Forall2 (fun r r' => float_same (q_score r) (q_score r'))
                    (sorted_reverse q_score (map score_of model_ids))
                    (sorted_reverse q_score (map score_of model_ids'))).
  { apply sorted_reverse_perm_same_key; [|exact Hnan].
    apply Permutation_map. exact Hperm. }
  assert (Hnan' : Forall (fun r => is_nan (q_score r) = false)
                    (sorted_reverse q_score (map score_of model_ids)))
    by (apply (sorted_reverse_no_nan q_score); exact Hnan).
  revert Hnan'. induction Hsame as [|r r' l l' Hr Hl IH]; intros Hnan'.
  - constructor.
  - inversion Hnan'; subst. constructor; [|apply IH; assumption].
    apply float_same_eq; assumption.
Qed.

End Rankings.

(** ** The tool entry point *)

Section RunDispatch.

Import Py MarketTools Fixtures.

Variable self : QScoreAnalyzerTool.

(** [run] answers with the error dictionary exactly when the action, which
  defaults to ["calculate"], is none of ["calculate"], ["compare"] and
  ["market"]; the error answer is the single item ["error": "Unknown
  action"], and every other answer has no ["error"] key.  A compare request
  lists one ranking per identifier, none when [model_ids] is missing. *)
Theorem run_error_iff_unknown_action (kwargs : RunKwargs) :
  let action := kwargs_get (kwargs_action kwargs) "calculate" in
  let answer := run self kwargs in
  (dict_contains "error" answer = true <->
   action <> "calculate" /\ action <> "compare" /\ action <> "market") /\
  (dict_contains "error" answer = true ->
   answer = [("error", PyStr "Unknown action")]) /\
  (action = "calculate" ->
   map fst answer = ["model_id"; "q_score"; "mint_eligible"; "recommendations"]) /\
  (action = "compare" ->
   exists rankings,
     answer = [("rankings", PyList rankings)] /\
     length rankings = length (kwargs_get (kwargs_model_ids kwargs) [])).
Proof.
  cbv zeta. unfold run. cbv zeta.
  set (action := kwargs_get (kwargs_action kwargs) "calculate").
  destruct (String.eqb_spec action "calculate") as [Hc|Hc];
    [|destruct (String.eqb_spec action "compare") as [Hp|Hp];
      [|destruct (String.eqb_spec action "market") as [Hm|Hm]]].
  - split; [split; [discriminate | intros (H & _); contradiction]|].
    split; [discriminate|]. split; [reflexivity|].
    intros Heq. rewrite Hc in Heq. discriminate Heq.
  - split; [split; [discriminate | intros (_ & H & _); contradiction]|].
    split; [discriminate|]. split; [intros; contradiction|].
    intros _. eexists. split; [reflexivity|].
    rewrite length_map.
    assert (Hlen : forall ids, length (compare_models self ids) = length ids).
    { intros ids. rewrite compare_models_unfold.
      rewrite (Permutation_length (sorted_reverse_perm q_score _)).
      apply length_map. }
    apply Hlen.
  - split; [split; [discriminate | intros (_ & _ & H); contradiction]|].
    split; [discriminate|]. split; intros; contradiction.
  - split; [split; [intros _; repeat split; assumption | reflexivity]|].
    split; [reflexivity|]. split; intros; contradiction.
Qed.

End RunDispatch.

(** ** The purchase tool *)

Section BuyTool.

Import Py ChattenTrader.

Variable buy_credits : string -> float -> Outcome (list (string * PyValue)).

(** [BuyComputeTool.run] reports a missing or empty model identifier first
  and an amount that compares [<= 0] (missing, zero, negative, minus
  infinity) second, each with ["success": False]; in both cases the answer
  is the same whatever [buy_credits] would do, so no purchase is attempted.
  Every other request is handed to [buy_credits] unchanged, and that
  includes an amount that is NaN, which no comparison rejects. *)
Theorem BuyComputeTool_run_validates (kwargs : BuyKwargs) :
  let answer := BuyComputeTool_run buy_credits kwargs in
  let model_id :=
    match kwargs_model_id kwargs with Some v => v | None => "" end in
  let gas_amount :=
    match kwargs_gas_amount kwargs with Some v => v | None => 0.0 end in
  let purchase :=
    match buy_credits model_id gas_amount with
    | Returned result => result
    | Raised message => [("error", PyStr message); ("success", PyBool false)]
    end in
  (model_id = "" ->
   answer = [("error", PyStr "model_id is required"); ("success", PyBool false)]) /\
  (model_id <> "" -> gas_amount <= 0 ->
   answer = [("error", PyStr "gas_amount must be greater than 0");
             ("success", PyBool false)]) /\
  (model_id = "" \/ gas_amount <= 0 ->
   forall other : string -> float -> Outcome (list (string * PyValue)),
     BuyComputeTool_run other kwargs = answer) /\
  (model_id <> "" -> 0 < gas_amount -> answer = purchase) /\
  (model_id <> "" -> is_nan gas_amount = true -> answer = purchase) /\
  (answer = purchase \/
   (dict_get "success" answer = Some (PyBool false) /\
    dict_contains "error" answer = true)).
Proof.
  cbv zeta. unfold BuyComputeTool_run. cbv zeta.
  set (model_id := match kwargs_model_id kwargs with Some v => v | None => "" end).
  set (gas_amount :=
         match kwargs_gas_amount kwargs with Some v => v | None => 0.0 end).
  destruct (String.eqb_spec model_id "") as [Hid|Hid].
  - repeat split; try reflexivity; try contradiction.
    right. split; reflexivity.
  - destruct gas_amount as [g|[|]|]; float_cbn; repeat q_case;
      (split; [intros; contradiction|]);
      (split; [intros _ H; first [reflexivity | discriminate H]|]);
      (split; [intros [H|H] other;
               first [contradiction | reflexivity | discriminate H]|]);
      (split; [intros _ H; first [reflexivity | discriminate H | exfalso; lra]|]);
      (split; [intros _ H; first [reflexivity | discriminate H]|]);
      first [left; reflexivity | right; split; reflexivity].
Qed.

End BuyTool.

(** ** Instances at concrete inputs *)

Section Instances.

Import Py MarketTools Fixtures Pricing.

(** The composite of a cached sample snapshot, fetched by identifier. *)
Lemma calculate_q_score_composite_witness :
  let self := {| _metrics_cache := <["b" := sample_performance_metrics]> ∅ |} in
  let r := calculate_q_score self "b" None LLM in
  metrics r = sample_performance_metrics /\
  Spec.numeric_quality sample_performance_metrics /\
  q_score r == 91.5 /\
  q_score r ==
    latency_score r + throughput_score r + quality_score r + reliability_score r /\
  0 <= q_score r <= 100.
Proof.
  cbv zeta.
  pose proof (calculate_q_score_composite
                {| _metrics_cache := <["b" := sample_performance_metrics]> ∅ |}
                "b" None LLM) as H.
  cbv zeta in H. destruct H as (Hm & _ & _ & _ & Hnum & _).
  assert (Hfetch : _fetch_metrics
                     {| _metrics_cache := <["b" := sample_performance_metrics]> ∅ |}
                     "b" = sample_performance_metrics) by reflexivity.
  rewrite Hfetch in Hm, Hnum.
  assert (Hq : Spec.numeric_quality sample_performance_metrics)
    by (split; reflexivity).
  split; [exact Hm|]. split; [exact Hq|]. split; [reflexivity|].
  destruct (Hnum Hq) as (Hsum & _ & _ & Hrange).
  split; [exact Hsum | exact Hrange].
Defined.

Lemma latency_score_antitone_positive_witness :
  0 < avg_latency_ms (snapshot 25 0 0 0 0 0) /\
  avg_latency_ms (snapshot 25 0 0 0 0 0) <= avg_latency_ms (snapshot 75 0 0 0 0 0) /\
  _calculate_latency_score (snapshot 75 0 0 0 0 0)
    <= _calculate_latency_score (snapshot 25 0 0 0 0 0).
Proof.
  assert (Hpos : 0 < avg_latency_ms (snapshot 25 0 0 0 0 0)) by reflexivity.
  assert (Hle : avg_latency_ms (snapshot 25 0 0 0 0 0)
                <= avg_latency_ms (snapshot 75 0 0 0 0 0))
    by reflexivity.
  split; [exact Hpos|]. split; [exact Hle|].
  exact (latency_score_antitone_positive _ _ Hpos Hle).
Defined.

Lemma latency_score_table_witness :
  50 <= avg_latency_ms (snapshot 75 0 0 0 0 0) /\
  avg_latency_ms (snapshot 75 0 0 0 0 0) < 100 /\
  _calculate_latency_score (snapshot 75 0 0 0 0 0) = 0.8.
Proof.
  assert (Hlo : 50 <= avg_latency_ms (snapshot 75 0 0 0 0 0)) by reflexivity.
  assert (Hhi : avg_latency_ms (snapshot 75 0 0 0 0 0) < 100) by reflexivity.
  split; [exact Hlo|]. split; [exact Hhi|].
  exact (proj1 (proj2 (proj2 (latency_score_table (snapshot 75 0 0 0 0 0)))) Hlo Hhi).
Defined.

(** Accuracy 1.5 and benchmark 150 are clamped to a quality of 1. *)
Lemma quality_score_clamped_witness :
  Spec.numeric_quality (snapshot 0 0 1.5 150 0 0) /\
  _calculate_quality_score (snapshot 0 0 1.5 150 0 0)
    == Spec.quality_fraction 1.5 150 /\
  0 <= _calculate_quality_score (snapshot 0 0 1.5 150 0 0) <= 1.
Proof.
  assert (Hnum : Spec.numeric_quality (snapshot 0 0 1.5 150 0 0))
    by (split; reflexivity).
  split; [exact Hnum|].
  pose proof (quality_score_clamped (snapshot 0 0 1.5 150 0 0) Hnum) as H.
  cbv zeta in H. destruct H as (Heq & Hrange & _).
  split; [exact Heq | exact Hrange].
Defined.

(** A ranking over a cache with two numeric snapshots and one miss. *)
Lemma compare_models_sorted_stable_witness :
  let self :=
    {| _metrics_cache :=
         <["a" := sample_poor_metrics]>
           (<["b" := sample_performance_metrics]> ∅) |} in
  let results := compare_models self ["a"; "d"; "b"] in
  Forall (fun model_id => Spec.numeric_quality (_fetch_metrics self model_id))
    ["a"; "d"; "b"] /\
  map model_id results = ["b"; "a"; "d"] /\
  StronglySorted (fun a b => q_score b <= q_score a) results.
Proof.
  cbv zeta.
  assert (Hnum : Forall
            (fun model_id =>
               Spec.numeric_quality
                 (_fetch_metrics
                    {| _metrics_cache :=
                         <["a" := sample_poor_metrics]>
                           (<["b" := sample_performance_metrics]> ∅) |}
                    model_id))
            ["a"; "d"; "b"]).
  { repeat (constructor; [split; vm_compute; reflexivity|]). constructor. }
  split; [exact Hnum|]. split; [vm_compute; reflexivity|].
  pose proof (compare_models_sorted_stable
                {| _metrics_cache :=
                     <["a" := sample_poor_metrics]>
                       (<["b" := sample_performance_metrics]> ∅) |}
                ["a"; "d"; "b"]) as H.
  cbv zeta in H. destruct H as (_ & _ & _ & Hsorted).
  exact (proj1 (Hsorted Hnum)).
Defined.

Lemma default_snapshot_score_witness :
  _metrics_cache QScoreAnalyzerTool_init !! "test-model" = None /\
  q_score (calculate_q_score QScoreAnalyzerTool_init "test-model" None LLM) == 12.5 /\
  mint_eligible (calculate_q_score QScoreAnalyzerTool_init "test-model" None LLM)
    = false.
Proof.
  assert (Hmiss : _metrics_cache QScoreAnalyzerTool_init !! "test-model" = None)
    by reflexivity.
  split; [exact Hmiss|].
  pose proof (default_snapshot_score QScoreAnalyzerTool_init "test-model" LLM Hmiss)
    as H.
  cbv zeta in H. split; apply H.
Defined.

Lemma generate_recommendations_shape_witness :
  80 <= 85 /\
  exists summary : string,
    _generate_recommendations 85 0.8 1.0 0.3 0.95 =
      ["Model accuracy needs improvement"] ++ [summary] /\
    summary = "Excellent performance - eligible for premium rates".
Proof.
  assert (H85 : 80 <= 85) by reflexivity.
  split; [exact H85|].
  destruct (generate_recommendations_shape 85 0.8 1.0 0.3 0.95)
    as [[summary [Heq [Hpremium _]]] _].
  exists summary. split; [exact Heq | exact (Hpremium H85)].
Defined.

Lemma buy_quote_floor_formula_witness :
  (50000000 <> 0)%Z /\
  TestContract.buy_compute_formula ONE_TOKEN 100000000 50000000
    = Some (300000, 99700000, 199400000)%Z.
Proof.
  assert (Hprice : (50000000 <> 0)%Z) by discriminate.
  split; [exact Hprice|].
  exact (proj1 (buy_quote_floor_formula 100000000 50000000 Hprice)).
Defined.

Lemma quote_rejects_nonpositive_price_witness :
  (0 <= 0)%Z /\
  quoteBuy 100000000 0 = QuoteFail InvalidPrice /\
  quoteSell 100000000 0 = QuoteFail InvalidPrice.
Proof.
  assert (Hprice : (0 <= 0)%Z) by (vm_compute; discriminate).
  split; [exact Hprice|].
  pose proof (quote_rejects_nonpositive_price 100000000 0 Hprice) as H.
  split; apply H.
Defined.

(** A cache with a tie: ["a"] and ["c"] share a composite below that of
    ["b"], and ["d"] is not cached. *)
Example compare_models_run :
  let self :=
    {| _metrics_cache :=
         <["a" := sample_poor_metrics]>
           (<["b" := sample_performance_metrics]>
              (<["c" := sample_poor_metrics]> ∅)) |} in
  map (fun r => (model_id r,
                 match q_score r with Num q => Some (Qred q) | _ => None end))
      (compare_models self ["a"; "d"; "b"; "c"])
  = [("b", Some (183 # 2)); ("a", Some (61 # 2)); ("c", Some (61 # 2));
     ("d", Some (25 # 2))].
Proof. vm_compute. reflexivity. Qed.

End Instances.

Section FurtherInstances.

Import Py MarketTools Fixtures Pricing.

Lemma throughput_score_monotone_witness :
  tokens_per_second sample_poor_metrics
    <= tokens_per_second sample_performance_metrics /\
  _calculate_throughput_score sample_poor_metrics
    <= _calculate_throughput_score sample_performance_metrics.
Proof.
  assert (Hle : tokens_per_second sample_poor_metrics
                <= tokens_per_second sample_performance_metrics)
    by reflexivity.
  split; [exact Hle|].
  exact (throughput_score_monotone _ _ Hle).
Defined.

Lemma reliability_score_monotone_witness :
  uptime_percentage sample_poor_metrics
    <= uptime_percentage sample_performance_metrics /\
  error_rate sample_performance_metrics <= error_rate sample_poor_metrics /\
  _calculate_reliability_score sample_poor_metrics
    <= _calculate_reliability_score sample_performance_metrics.
Proof.
  assert (Hup : uptime_percentage sample_poor_metrics
                <= uptime_percentage sample_performance_metrics)
    by reflexivity.
  assert (Herr : error_rate sample_performance_metrics
                 <= error_rate sample_poor_metrics)
    by reflexivity.
  split; [exact Hup|]. split; [exact Herr|].
  exact (reliability_score_monotone _ _ Hup Herr).
Defined.

Lemma quality_score_monotone_witness :
  accuracy_score sample_poor_metrics
    <= accuracy_score sample_performance_metrics /\
  benchmark_score sample_poor_metrics
    <= benchmark_score sample_performance_metrics /\
  _calculate_quality_score sample_poor_metrics
    <= _calculate_quality_score sample_performance_metrics.
Proof.
  assert (Ha : accuracy_score sample_poor_metrics
               <= accuracy_score sample_performance_metrics)
    by reflexivity.
  assert (Hb : benchmark_score sample_poor_metrics
               <= benchmark_score sample_performance_metrics)
    by reflexivity.
  split; [exact Ha|]. split; [exact Hb|].
  exact (quality_score_monotone _ _ Ha Hb).
Defined.

Lemma q_score_monotone_in_metrics_witness :
  q_score (calculate_q_score QScoreAnalyzerTool_init "m"
             (Some sample_poor_metrics) LLM)
  <= q_score (calculate_q_score QScoreAnalyzerTool_init "m"
                (Some sample_performance_metrics) LLM).
Proof.
  refine (proj1 (q_score_monotone_in_metrics QScoreAnalyzerTool_init "m" LLM
                   sample_poor_metrics sample_performance_metrics
                   _ _ _ _ _ _ _));
    reflexivity.
Defined.

Lemma perfect_snapshot_scores_100_witness :
  q_score (calculate_q_score QScoreAnalyzerTool_init "m"
             (Some (snapshot 25 1500 1 100 99.99 0)) LLM) == 100.
Proof.
  refine (proj1 (perfect_snapshot_scores_100 QScoreAnalyzerTool_init "m" LLM
                   (snapshot 25 1500 1 100 99.99 0) _ _ _ _ _ _ _));
    reflexivity.
Defined.

Lemma score_reads_six_fields_witness :
  q_score (calculate_q_score QScoreAnalyzerTool_init "m"
             (Some sample_performance_metrics) LLM)
  = q_score (calculate_q_score QScoreAnalyzerTool_init "m"
               (Some (snapshot 50.0 1000.0 0.95 85.0 99.9 0.001)) AUDIO).
Proof.
  refine (proj1 (score_reads_six_fields QScoreAnalyzerTool_init "m" LLM AUDIO
                   sample_performance_metrics
                   (snapshot 50.0 1000.0 0.95 85.0 99.9 0.001)
                   _ _ _ _ _ _));
    reflexivity.
Defined.

Lemma cached_snapshot_is_scored_witness :
  let self := {| _metrics_cache := <["a" := sample_poor_metrics]> ∅ |} in
  _metrics_cache self !! "a" = Some sample_poor_metrics /\
  calculate_q_score self "a" None LLM =
  calculate_q_score QScoreAnalyzerTool_init "a" (Some sample_poor_metrics) LLM.
Proof.
  cbv zeta.
  assert (Hhit : _metrics_cache
                   {| _metrics_cache := <["a" := sample_poor_metrics]> ∅ |}
                 !! "a" = Some sample_poor_metrics) by reflexivity.
  split; [exact Hhit|].
  exact (cached_snapshot_is_scored _ QScoreAnalyzerTool_init "a"
           sample_poor_metrics LLM Hhit).
Defined.

Lemma compare_models_uncached_keeps_order_witness :
  map model_id (compare_models QScoreAnalyzerTool_init ["model-a"; "model-b"])
  = ["model-a"; "model-b"].
Proof.
  refine (proj1 (compare_models_uncached_keeps_order QScoreAnalyzerTool_init
                   ["model-a"; "model-b"] _)).
  repeat constructor.
Defined.

(** The sample snapshot is eligible and ranks first; the poor snapshot and
  the uncached identifier follow. *)
Lemma compare_models_eligible_first_witness :
  let self :=
    {| _metrics_cache :=
         <["a" := sample_poor_metrics]>
           (<["b" := sample_performance_metrics]> ∅) |} in
  Forall (fun model_id => Spec.numeric_quality (_fetch_metrics self model_id))
    ["a"; "b"; "d"] /\
  map mint_eligible (compare_models self ["a"; "b"; "d"]) = [true; false; false] /\
  exists eligible ineligible : list QScoreResult,
    compare_models self ["a"; "b"; "d"] = eligible ++ ineligible /\
    Forall (fun r => mint_eligible r = true) eligible /\
    Forall (fun r => mint_eligible r = false) ineligible.
Proof.
  cbv zeta.
  assert (Hnum : Forall
            (fun model_id =>
               Spec.numeric_quality
                 (_fetch_metrics
                    {| _metrics_cache :=
                         <["a" := sample_poor_metrics]>
                           (<["b" := sample_performance_metrics]> ∅) |}
                    model_id))
            ["a"; "b"; "d"]).
  { repeat (constructor; [split; vm_compute; reflexivity|]). constructor. }
  split; [exact Hnum|]. split; [vm_compute; reflexivity|].
  exact (compare_models_eligible_first _ _ Hnum).
Defined.

(** Three identifiers with three different composites, given in two
  orders. *)
Lemma compare_models_scores_order_independent_witness :
  let self :=
    {| _metrics_cache :=
         <["a" := sample_poor_metrics]>
           (<["b" := sample_performance_metrics]> ∅) |} in
  Forall (fun model_id => Spec.numeric_quality (_fetch_metrics self model_id))
    ["a"; "b"; "d"] /\
  Permutation ["a"; "b"; "d"] ["d"; "b"; "a"] /\
  map model_id (compare_models self ["a"; "b"; "d"]) = ["b"; "a"; "d"] /\
  map model_id (compare_models self ["d"; "b"; "a"]) = ["b"; "a"; "d"] /\
  Forall2 (fun r r' => q_score r == q_score r')
    (compare_models self ["a"; "b"; "d"])
    (compare_models self ["d"; "b"; "a"]).
Proof.
  cbv zeta.
  assert (Hnum : Forall
            (fun model_id =>
               Spec.numeric_quality
                 (_fetch_metrics
                    {| _metrics_cache :=
                         <["a" := sample_poor_metrics]>
                           (<["b" := sample_performance_metrics]> ∅) |}
                    model_id))
            ["a"; "b"; "d"]).
  { repeat (constructor; [split; vm_compute; reflexivity|]). constructor. }
  assert (Hperm : Permutation ["a"; "b"; "d"] ["d"; "b"; "a"])
    by apply (Permutation_rev ["a"; "b"; "d"]).
  split; [exact Hnum|]. split; [exact Hperm|].
  split; [vm_compute; reflexivity|]. split; [vm_compute; reflexivity|].
  exact (compare_models_scores_order_independent _ _ _ Hnum Hperm).
Defined.

Lemma buy_compute_formula_conserves_witness :
  (0 <= 100000000)%Z /\ (0 < 50000000)%Z /\
  exists fee net compute : Z,
    TestContract.buy_compute_formula ONE_TOKEN 100000000 50000000
      = Some (fee, net, compute) /\
    (fee + net = 100000000)%Z.
Proof.
  assert (Hamount : (0 <= 100000000)%Z) by discriminate.
  assert (Hprice : (0 < 50000000)%Z) by reflexivity.
  split; [exact Hamount|]. split; [exact Hprice|].
  destruct (buy_compute_formula_conserves 100000000 50000000 Hamount Hprice)
    as (fee & net & compute & Heq & Hsum & _).
  exists fee, net, compute. split; [exact Heq | exact Hsum].
Defined.

Lemma swap_fee_dust_is_free_witness :
  (0 <= 333)%Z /\ TestContract.fee_of 333 = Some 0%Z.
Proof.
  assert (Hamount : (0 <= 333)%Z) by discriminate.
  split; [exact Hamount|].
  apply (proj2 (swap_fee_dust_is_free 333 Hamount)). discriminate.
Defined.

Lemma buy_compute_formula_monotone_witness :
  exists fee_lo net_lo out_lo fee_hi net_hi out_hi : Z,
    TestContract.buy_compute_formula ONE_TOKEN 10000000 60000000
      = Some (fee_lo, net_lo, out_lo) /\
    TestContract.buy_compute_formula ONE_TOKEN 100000000 50000000
      = Some (fee_hi, net_hi, out_hi) /\
    (fee_lo <= fee_hi)%Z /\ (net_lo <= net_hi)%Z /\ (out_lo <= out_hi)%Z.
Proof.
  refine (buy_compute_formula_monotone 10000000 100000000 50000000 60000000
            _ _ _ _);
    first [reflexivity | discriminate].
Defined.

End FurtherInstances.
